(** * Bad-boy statistics: a shallow embedding of [calculate/bad_boy_stats.py]

    The development follows the class [BadBoyStats]: the aggregation of
    arrest records into per-player and per-team (D/ST) entries
    ([add_entry]), the snapshot files ([open_bad_boy_data],
    [save_bad_boy_data]), the three run modes of [__init__] and the lookup
    with default creation ([get_player_bad_boy_stats] and its wrappers).

    Conventions of the model.
    - Python [str] is [string]; the text handled here (names, team codes,
      crime categories) is taken to be ASCII, and [upper], [lower] and the
      white space test are Python's on that range.
    - Python [int] is [Z]; [None] in a field that may hold a string is
      [option string].
    - A [dict] used as a map is a [gmap] with string keys; the two shapes of
      dictionary the class stores under a name are the two constructors of
      [Entry].
    - Calls to the logger have no effect on the data and are left out. *)

From stdpp Require Import gmap strings list fin_maps sorting pretty.
From Stdlib Require Import ZArith Ascii String Lia.

Open Scope string_scope.
Open Scope list_scope.
Open Scope Z_scope.

(** ** Strings *)

Module Str.

Definition code (c : ascii) : N := N_of_ascii c.

(** [str.upper] and [str.lower] on one ASCII character. *)
Definition upper_char (c : ascii) : ascii :=
  if ((97 <=? code c) && (code c <=? 122))%N
  then ascii_of_N (code c - 32) else c.

Definition lower_char (c : ascii) : ascii :=
  if ((65 <=? code c) && (code c <=? 90))%N
  then ascii_of_N (code c + 32) else c.

(** [str.isspace] on one ASCII character: tab, line feed, vertical tab,
    form feed, carriage return, the four separators 28..31 and space. *)
Definition is_space (c : ascii) : bool :=
  (((9 <=? code c) && (code c <=? 13))
   || ((28 <=? code c) && (code c <=? 32)))%N.

Fixpoint map_chars (f : ascii -> ascii) (s : string) : string :=
  match s with
  | EmptyString => EmptyString
  | String c r => String (f c) (map_chars f r)
  end.

Definition upper : string -> string := map_chars upper_char.
Definition lower : string -> string := map_chars lower_char.

(** [str.capitalize]: first character upper case, the rest lower case. *)
Definition capitalize (s : string) : string :=
  match s with
  | EmptyString => EmptyString
  | String c r => String (upper_char c) (lower r)
  end.

(** [str.split()] without a separator: the maximal runs of characters
    that are not white space. [cur] is the word being read, reversed. *)
Fixpoint split_aux (cur : list ascii) (s : string) : list string :=
  let flush := match cur with
               | [] => []
               | _ => [string_of_list_ascii (rev cur)]
               end in
  match s with
  | EmptyString => flush
  | String c r =>
      if is_space c then flush ++ split_aux [] r
      else split_aux (c :: cur) r
  end.

Definition split : string -> list string := split_aux [].

(** [sep.join(words)]. *)
Fixpoint join (sep : string) (ws : list string) : string :=
  match ws with
  | [] => ""
  | [w] => w
  | w :: r => w +:+ sep +:+ join sep r
  end.

(** [string.capwords(s)] is [" ".join(w.capitalize() for w in s.split())]. *)
Definition capwords (s : string) : string :=
  join " " (map capitalize (split s)).

Fixpoint lstrip (s : string) : string :=
  match s with
  | EmptyString => EmptyString
  | String c r => if is_space c then lstrip r else s
  end.

Fixpoint rstrip (s : string) : string :=
  match s with
  | EmptyString => EmptyString
  | String c r =>
      match rstrip r with
      | EmptyString => if is_space c then EmptyString else String c EmptyString
      | r' => String c r'
      end
  end.

(** [str.strip()]. *)
Definition strip (s : string) : string := rstrip (lstrip s).

End Str.

(** Truth value of an optional string argument: [None] and [""] are false. *)
Definition truthy (s : option string) : bool :=
  match s with
  | None | Some "" => false
  | Some _ => true
  end.

(** ** Data model *)

(** One arrest, as [__init__] builds it from a record of the feed. *)
Record ArrestRecord := mkArrest {
  a_name : string;
  a_team : string;
  a_date : string;
  a_position : string;
  a_position_type : string;
  a_case : string;
  a_crime : string;
  a_description : string;
  a_outcome : string
}.

(** The dictionary stored for a player: [nfl_player] in [add_entry] and the
    default entry of [get_player_bad_boy_stats]. [offenses] is the list of
    one-key dictionaries [{category: points}]. *)
Record PlayerEntry := mkPlayer {
  team : string;
  pos : string;
  offenses : list (string * Z);
  total_points : Z;
  worst_offense : option string;
  worst_offense_points : Z
}.

(** The dictionary stored for a team defense: [nfl_team] in [add_entry]. *)
Record TeamEntry := mkTeam {
  t_pos : string;
  players : gmap string PlayerEntry;
  t_total_points : Z;
  offenders : list string;
  num_offenders : Z;
  t_worst_offense : option string;
  t_worst_offense_points : Z
}.

Inductive Entry :=
| Player (p : PlayerEntry)
| Team (t : TeamEntry).

(** The object: the fields of [self] that the methods read or write. *)
Record BadBoyStats := mkStats {
  save_data : bool;
  offline : bool;
  refresh : bool;
  crime_rankings : gmap string Z;
  unique_crime_categories_for_output : gmap string Z;
  raw_bad_boy_data : gmap string ArrestRecord;
  raw_bad_boy_data_file_path : string;
  bad_boy_data : gmap string Entry;
  bad_boy_data_file_path : string
}.

Definition set_bad_boy_data (d : gmap string Entry) (st : BadBoyStats) : BadBoyStats :=
  mkStats (save_data st) (offline st) (refresh st) (crime_rankings st)
          (unique_crime_categories_for_output st) (raw_bad_boy_data st)
          (raw_bad_boy_data_file_path st) d (bad_boy_data_file_path st).

Definition set_raw_bad_boy_data (r : gmap string ArrestRecord) (st : BadBoyStats) : BadBoyStats :=
  mkStats (save_data st) (offline st) (refresh st) (crime_rankings st)
          (unique_crime_categories_for_output st) r
          (raw_bad_boy_data_file_path st) (bad_boy_data st) (bad_boy_data_file_path st).

Definition set_unique_crime_categories (u : gmap string Z) (st : BadBoyStats) : BadBoyStats :=
  mkStats (save_data st) (offline st) (refresh st) (crime_rankings st)
          u (raw_bad_boy_data st)
          (raw_bad_boy_data_file_path st) (bad_boy_data st) (bad_boy_data_file_path st).

(** ** The order of [list(set(names))]

    Python fixes no order for the elements of a set; within one run the list
    obtained from a set is some duplicate-free list with the same elements.
    The class below is what the model knows about it. *)
Class SetOrder := {
  list_of_set : list string -> list string;
  list_of_set_NoDup : forall l, NoDup (list_of_set l);
  elem_of_list_of_set : forall l x, x ∈ list_of_set l <-> x ∈ l
}.

(** One such order: keep the last occurrence of each name. *)
#[export] Instance last_occurrence_order : SetOrder :=
  {| list_of_set := remove_dups;
     list_of_set_NoDup := NoDup_remove_dups;
     elem_of_list_of_set := elem_of_remove_dups |}.

(** ** Aggregation: [add_entry] *)

Section Aggregator.

Context {so : SetOrder}.

Definition new_team : TeamEntry :=
  {| t_pos := "D/ST"; players := ∅; t_total_points := 0; offenders := [];
     num_offenders := 0; t_worst_offense := None; t_worst_offense_points := 0 |}.

(** [offense_points]: the table's value, or 0 for a category not in it. *)
Definition offense_points_of (rankings : gmap string Z) (category : string) : Z :=
  match rankings !! category with
  | Some p => p
  | None => 0
  end.

(** The body of [for player_arrest in arrests]. The state of the loop is
    the object and the local dictionary [nfl_team]. *)
Definition add_arrest (team_abbr : string)
    (acc : BadBoyStats * TeamEntry) (player_arrest : ArrestRecord)
    : BadBoyStats * TeamEntry :=
  let '(st, nfl_team) := acc in
  let player_name := a_name player_arrest in
  let player_pos := a_position player_arrest in
  let player_pos_type := a_position_type player_arrest in
  let offense_category := Str.upper (a_crime player_arrest) in
  let st := set_unique_crime_categories
              (<[offense_category := default 0 (crime_rankings st !! offense_category)]>
                 (unique_crime_categories_for_output st)) st in
  let st := set_raw_bad_boy_data
              (<[player_name := player_arrest]> (raw_bad_boy_data st)) st in
  let offense_points := offense_points_of (crime_rankings st) offense_category in
  (* nfl_player starts from the zero dictionary on every iteration *)
  let nfl_player0 := mkPlayer team_abbr player_pos [] 0 None 0 in
  let offenses1 := offenses nfl_player0 ++ [(offense_category, offense_points)] in
  let total1 := total_points nfl_player0 + offense_points in
  let '(worst1, worst_points1) :=
    if worst_offense_points nfl_player0 <? offense_points
    then (Some offense_category, offense_points)
    else (worst_offense nfl_player0, worst_offense_points nfl_player0) in
  let nfl_player := mkPlayer team_abbr player_pos offenses1 total1 worst1 worst_points1 in
  let st := set_bad_boy_data (<[player_name := Player nfl_player]> (bad_boy_data st)) st in
  if decide (player_pos_type = "D") then
    let offenders1 := list_of_set (offenders nfl_team ++ [player_name]) in
    let '(tworst, tworst_points) :=
      if t_worst_offense_points nfl_team <? offense_points
      then (Some offense_category, offense_points)
      else (t_worst_offense nfl_team, t_worst_offense_points nfl_team) in
    (st, mkTeam (t_pos nfl_team)
                (<[player_name := nfl_player]> (players nfl_team))
                (t_total_points nfl_team + offense_points)
                offenders1
                (Z.of_nat (List.length offenders1))
                tworst tworst_points)
  else (st, nfl_team).

(** [add_entry(team_abbr, arrests)]; [arrests] is [None] when the team has
    no group in [arrests_by_team]. *)
Definition add_entry (team_abbr : string) (arrests : option (list ArrestRecord))
    (st : BadBoyStats) : BadBoyStats :=
  match arrests with
  | None | Some [] => st
  | Some l =>
      let '(st', nfl_team) := foldl (add_arrest team_abbr) (st, new_team) l in
      set_bad_boy_data (<[team_abbr := Team nfl_team]> (bad_boy_data st')) st'
  end.

End Aggregator.

(** ** Results and exceptions *)

Inductive exn :=
| KeyError (key : string)
| FileNotFoundError (msg : string)
| ConnectionError.

Inductive result (A : Type) :=
| Ok (a : A)
| Raise (e : exn).

Arguments Ok {A} a.
Arguments Raise {A} e.

(** ** Snapshot files: [open_bad_boy_data], [save_bad_boy_data]

    The two JSON documents of the data directory. A file at a path, when it
    exists, holds the document that [json.dump] wrote there: [json.load]
    gives back string-keyed dictionaries, lists, integers, strings and
    [None] as they were dumped, and an entry is made of nothing else. *)

Record FileSystem := mkFS {
  store_files : gmap string (gmap string Entry);
  raw_files : gmap string (gmap string ArrestRecord)
}.

Definition open_bad_boy_data (fs : FileSystem) (st : BadBoyStats) : BadBoyStats :=
  match store_files fs !! bad_boy_data_file_path st with
  | Some d => set_bad_boy_data d st
  | None => st
  end.

Definition save_bad_boy_data (st : BadBoyStats) (fs : FileSystem) : FileSystem :=
  if save_data st then
    mkFS (<[bad_boy_data_file_path st := bad_boy_data st]> (store_files fs))
         (<[raw_bad_boy_data_file_path st := raw_bad_boy_data st]> (raw_files fs))
  else fs.

(** ** Lookup: [get_player_bad_boy_stats] and its wrappers *)

(** What a lookup can return: an entry, or the value of one of its keys. *)
Inductive pyval :=
| VNone
| VInt (z : Z)
| VStr (s : string)
| VOffenses (l : list (string * Z))
| VNames (l : list string)
| VPlayers (m : gmap string PlayerEntry)
| VEntry (e : Entry).

Definition opt_str (o : option string) : pyval :=
  match o with
  | Some s => VStr s
  | None => VNone
  end.

(** The keys of the two dictionaries. *)
Definition entry_key (e : Entry) (key : string) : option pyval :=
  match e with
  | Player p =>
      if decide (key = "team") then Some (VStr (team p))
      else if decide (key = "pos") then Some (VStr (pos p))
      else if decide (key = "offenses") then Some (VOffenses (offenses p))
      else if decide (key = "total_points") then Some (VInt (total_points p))
      else if decide (key = "worst_offense") then Some (opt_str (worst_offense p))
      else if decide (key = "worst_offense_points") then Some (VInt (worst_offense_points p))
      else None
  | Team t =>
      if decide (key = "pos") then Some (VStr (t_pos t))
      else if decide (key = "players") then Some (VPlayers (players t))
      else if decide (key = "total_points") then Some (VInt (t_total_points t))
      else if decide (key = "offenders") then Some (VNames (offenders t))
      else if decide (key = "num_offenders") then Some (VInt (num_offenders t))
      else if decide (key = "worst_offense") then Some (opt_str (t_worst_offense t))
      else if decide (key = "worst_offense_points") then Some (VInt (t_worst_offense_points t))
      else None
  end.

(** [entry[key]] raises [KeyError] on a missing key; [entry.get(key)] gives
    [None]. *)
Definition getitem (e : Entry) (key : string) : result pyval :=
  match entry_key e key with
  | Some v => Ok v
  | None => Raise (KeyError key)
  end.

Definition dict_get (e : Entry) (key : string) : pyval :=
  default VNone (entry_key e key).

(** The key that stands in for every team defense. *)
Definition disabled_defense_key : string :=
  "TEMPORARY DISABLING OF TEAM DEFENSES IN BAD BOY POINTS".

Section Lookup.

(** [nfl_team_abbreviations] and [nfl_team_abbreviation_conversions] of
    [utilities.constants]. *)
Variable nfl_team_abbreviations : list string.
Variable nfl_team_abbreviation_conversions : gmap string string.

(** The local [player_team]: upper case, ["?"] for a false argument, and
    passed through the conversion table when it is not an abbreviation. *)
Definition player_team_of (player_team_abbr : option string) : string :=
  let player_team :=
    match player_team_abbr with
    | Some s => if truthy player_team_abbr then Str.upper s else "?"
    | None => "?"
    end in
  if decide (player_team ∈ nfl_team_abbreviations) then player_team
  else match nfl_team_abbreviation_conversions !! player_team with
       | Some converted => converted
       | None => player_team
       end.

Definition capwords_or_empty (name : option string) : string :=
  match name with
  | Some s => if truthy name then Str.capwords s else ""
  | None => ""
  end.

(** The local [player_full_name] as it stands when the store is consulted. *)
Definition player_full_name_of (player_first_name player_last_name : option string)
    (player_pos : string) : string :=
  let player_full_name :=
    Str.strip (capwords_or_empty player_first_name
               +:+ (if truthy player_first_name && truthy player_last_name then " " else "")
               +:+ capwords_or_empty player_last_name) in
  if decide (player_pos = "D/ST") then disabled_defense_key else player_full_name.

(** The final [return]: the whole entry for an empty [key_str]. *)
Definition select (e : Entry) (key_str : string) : result pyval :=
  if decide (key_str = "") then Ok (VEntry e) else getitem e key_str.

Definition default_entry (player_team player_pos : string) : PlayerEntry :=
  mkPlayer player_team player_pos [] 0 None 0.

(** The entry found under the name, or the default entry stored on a miss:
    both branches of [if player_full_name in self.bad_boy_data]. *)
Definition find_or_create
    (player_first_name player_last_name player_team_abbr : option string)
    (player_pos : string) (st : BadBoyStats) : BadBoyStats * Entry :=
  let player_team := player_team_of player_team_abbr in
  let player_full_name := player_full_name_of player_first_name player_last_name player_pos in
  match bad_boy_data st !! player_full_name with
  | Some e => (st, e)
  | None =>
      let e := Player (default_entry player_team player_pos) in
      (set_bad_boy_data (<[player_full_name := e]> (bad_boy_data st)) st, e)
  end.

Definition get_player_bad_boy_stats
    (player_first_name player_last_name player_team_abbr : option string)
    (player_pos : string) (key_str : string) (st : BadBoyStats)
    : BadBoyStats * result pyval :=
  let '(st', e) := find_or_create player_first_name player_last_name
                     player_team_abbr player_pos st in
  (st', select e key_str).

Definition get_player_bad_boy_crime first last player_team player_pos :=
  get_player_bad_boy_stats first last player_team player_pos "worst_offense".

Definition get_player_bad_boy_points first last player_team player_pos :=
  get_player_bad_boy_stats first last player_team player_pos "total_points".

Definition is_str (v : pyval) (s : string) : bool :=
  match v with
  | VStr s' => bool_decide (s' = s)
  | _ => false
  end.

(** The call passes no [key_str], so [player_bad_boy_stats] is the entry
    itself; the value returned is that of [.get("num_offenders")], which is
    [None] for a dictionary without that key. *)
Definition get_player_bad_boy_num_offenders
    (player_first_name player_last_name player_team : option string)
    (player_pos : string) (st : BadBoyStats) : BadBoyStats * pyval :=
  let '(st', player_bad_boy_stats) :=
    find_or_create player_first_name player_last_name player_team player_pos st in
  if is_str (dict_get player_bad_boy_stats "pos") "D/ST"
  then (st', dict_get player_bad_boy_stats "num_offenders")
  else (st', VInt 0).

End Lookup.

(** ** Initialisation: [__init__]

    The web is an oracle: what the arrests page yields as [ajax_nonce], and
    what the table endpoint answers for a nonce, a team and a page number.
    A request that fails raises, and nothing catches it. Every request made
    is appended to a log. *)

Record RawArrest := mkRaw {
  r_First_name : string;
  r_Last_name : string;
  r_Team : string;
  r_Date : string;
  r_Position : string;
  r_Case_1 : string;
  r_Category : string;
  r_Description : string;
  r_Outcome : string
}.

Record Page := mkPage {
  Result : list RawArrest;
  totalResults : Z
}.

Record Web := mkWeb {
  ajax_nonce_of_page : result string;
  fetch_table : string -> string -> Z -> result Page
}.

Inductive request :=
| GetArrestsPage
| PostFetchTable (security team : string) (page : Z).

(** A computation that logs requests and may raise. *)
Definition Fetch (A : Type) : Type := list request -> list request * result A.

Definition ret {A} (a : A) : Fetch A := fun log => (log, Ok a).

Definition bind {A B} (m : Fetch A) (k : A -> Fetch B) : Fetch B :=
  fun log =>
    match m log with
    | (log', Ok a) => k a log'
    | (log', Raise e) => (log', Raise e)
    end.

Definition lift {A} (r : result A) : Fetch A := fun log => (log, r).

Definition send {A} (q : request) (answer : result A) : Fetch A :=
  fun log => (log ++ [q], answer).

Notation "'do' x <- m ; k" := (bind m (fun x => k))
  (at level 10, x name, m at level 100, k at level 200).

(** A loop that appends to an accumulator and stops at the first exception. *)
Fixpoint for_each {A B} (f : A -> Fetch (list B)) (l : list A) (acc : list B)
    : Fetch (list B) :=
  match l with
  | [] => ret acc
  | a :: r => do bs <- f a; for_each f r (acc ++ bs)
  end.

Definition position_types : gmap string string :=
  list_to_map
    [("C", "D"); ("CB", "D"); ("DB", "D"); ("DE", "D"); ("DE/DT", "D");
     ("DT", "D"); ("LB", "D"); ("S", "D"); ("Safety", "D");
     ("FB", "O"); ("QB", "O"); ("RB", "O"); ("TE", "O"); ("WR", "O");
     ("K", "S"); ("P", "S");
     ("OG", "L"); ("OL", "L"); ("OT", "L");
     ("OC", "C")].

(** The dictionary appended for one record of the feed; an unknown position
    is a [KeyError]. *)
Definition arrest_of_raw (arrest : RawArrest) : result ArrestRecord :=
  match position_types !! r_Position arrest with
  | None => Raise (KeyError (r_Position arrest))
  | Some position_type =>
      Ok (mkArrest
            (r_First_name arrest +:+ " " +:+ r_Last_name arrest)
            (if decide (r_Team arrest = "Free agent" \/ r_Team arrest = "Free Agent")
             then "FA" else r_Team arrest)
            (r_Date arrest)
            (r_Position arrest)
            position_type
            (Str.upper (r_Case_1 arrest))
            (Str.upper (r_Category arrest))
            (r_Description arrest)
            (r_Outcome arrest))
  end.

Fixpoint arrests_of_page (arrests_data : list RawArrest) : result (list ArrestRecord) :=
  match arrests_data with
  | [] => Ok []
  | arrest :: r =>
      match arrest_of_raw arrest with
      | Raise e => Raise e
      | Ok a =>
          match arrests_of_page r with
          | Raise e => Raise e
          | Ok l => Ok (a :: l)
          end
      end
  end.

Definition num_pages_of (total_results : Z) : Z :=
  if 0 <? total_results mod 20 then total_results / 20 + 1 else total_results / 20.

(** What [__init__] reads and changes outside the object: the files of the
    data directory, what opening and parsing [crime_categories.json] gives
    (the table, or the exception it raises), and the log of requests.
    Creating the data directory changes none of them. *)
Record World := mkWorld {
  files : FileSystem;
  crime_categories_resource : result (gmap string Z);
  requests : list request
}.

(** [not d] for a dictionary [d]. *)
Definition is_empty_dict {V} (d : gmap string V) : bool := Nat.eqb (size d) 0.

Definition missing_saved_data (path : string) : exn :=
  FileNotFoundError
    ("FILE " +:+ path +:+
     " DOES NOT EXIST. CANNOT RUN LOCALLY WITHOUT HAVING PREVIOUSLY SAVED DATA!").

Section Init.

Context {so : SetOrder}.
Variable nfl_team_abbreviations : list string.
Variable web : Web.

Definition fetch_page (security team : string) (page : Z) : Fetch (list ArrestRecord * Z) :=
  do res_json <- send (PostFetchTable security team page)
                     (fetch_table web security team page);
  do arrests <- lift (arrests_of_page (Result res_json));
  ret (arrests, totalResults res_json).

(** The body of [for team in nfl_team_abbreviations]: page 1, then pages
    2 to [num_pages] when there are more than 20 results. *)
Definition fetch_team (security team : string) : Fetch (list ArrestRecord) :=
  do first <- fetch_page security team 1;
  let '(arrests, total_results) := first in
  if 20 <? total_results then
    for_each (fun page => do p <- fetch_page security team page; ret (fst p))
             (seqZ 2 (num_pages_of total_results - 1)) arrests
  else ret arrests.

Definition fetch_all_arrests : Fetch (list ArrestRecord) :=
  do security <- send GetArrestsPage (ajax_nonce_of_page web);
  for_each (fetch_team security) nfl_team_abbreviations [].

(** [arrests_by_team.get(team_abbr)]: the arrests of the team in the order
    they were fetched (the sort is stable), [None] when there are none. *)
Definition arrests_by_team_get (arrests : list ArrestRecord) (team_abbr : string)
    : option (list ArrestRecord) :=
  match filter (fun a => a_team a = team_abbr) arrests with
  | [] => None
  | l => Some l
  end.

Definition init (data_dir : string) (save_data offline refresh : bool) (w : World)
    : World * result BadBoyStats :=
  match crime_categories_resource w with
  | Raise e => (w, Raise e)
  | Ok crime_rankings =>
      let self := mkStats save_data offline refresh crime_rankings ∅
                    ∅ (data_dir +:+ "/bad_boy_raw_data.json")
                    ∅ (data_dir +:+ "/bad_boy_data.json") in
      let self := if negb refresh then open_bad_boy_data (files w) self else self in
      if refresh || negb offline then
        if is_empty_dict (bad_boy_data self) then
          match fetch_all_arrests (requests w) with
          | (log, Raise e) =>
              (mkWorld (files w) (crime_categories_resource w) log, Raise e)
          | (log, Ok arrests) =>
              let self :=
                foldl (fun self team_abbr =>
                         add_entry team_abbr (arrests_by_team_get arrests team_abbr) self)
                      self nfl_team_abbreviations in
              (mkWorld (save_bad_boy_data self (files w))
                       (crime_categories_resource w) log,
               Ok self)
          end
        else (w, Ok self)
      else
        if is_empty_dict (bad_boy_data self) then
          (w, Raise (missing_saved_data (bad_boy_data_file_path self)))
        else (w, Ok self)
  end.

End Init.

(** * Properties *)

(** ** Sample data *)

(** The scoring table of the scenario: DUI 5, ASSAULT 10. *)
Definition scenario_rankings : gmap string Z :=
  <["DUI" := 5]> (<["ASSAULT" := 10]> ∅).

(** A scoring table in which two categories have the same value. *)
Definition tied_rankings : gmap string Z :=
  <["DUI" := 5]> (<["THEFT" := 5]> ∅).

(** An object with an empty store and the given scoring table. *)
Definition fresh_stats (rankings : gmap string Z) : BadBoyStats :=
  mkStats false false false rankings ∅ ∅ "data/bad_boy_raw_data.json"
          ∅ "data/bad_boy_data.json".

Definition arrest (name position position_type crime : string) : ArrestRecord :=
  mkArrest name "XYZ" "2020-01-01" position position_type "ARRESTED" crime "" "".

(** Abbreviations and conversions in the shape of [utilities.constants]. *)
Definition sample_abbreviations : list string :=
  ["ARI"; "JAX"; "LAR"; "NE"; "SEA"; "WAS"].

Definition sample_conversions : gmap string string :=
  <["JAC" := "JAX"]> (<["LA" := "LAR"]> (<["WSH" := "WAS"]> ∅)).

(** ** What the loop of [add_entry] computes *)

Definition category_of (a : ArrestRecord) : string := Str.upper (a_crime a).

Definition points_of (rankings : gmap string Z) (a : ArrestRecord) : Z :=
  offense_points_of rankings (category_of a).

(** The arrests that are rolled into the team entry. *)
Definition defensive (l : list ArrestRecord) : list ArrestRecord :=
  filter (fun a => a_position_type a = "D") l.

Definition sum_Z (l : list Z) : Z := foldr Z.add 0 l.
Definition max_Z (l : list Z) : Z := foldr Z.max 0 l.

(** The entry that one arrest leaves under the player's name. *)
Definition single_offense_entry (rankings : gmap string Z) (team_abbr : string)
    (a : ArrestRecord) : PlayerEntry :=
  let p := points_of rankings a in
  mkPlayer team_abbr (a_position a) [(category_of a, p)] p
           (if 0 <? p then Some (category_of a) else None)
           (if 0 <? p then p else 0).

(** The last arrest of a list that bears a given name. *)
Definition last_arrest_of (name : string) (l : list ArrestRecord) : option ArrestRecord :=
  last (filter (fun a => a_name a = name) l).

(** Following the words of the specification: the total of a player is the
    sum of the points of all the offenses of that player in the sequence, the
    worst offense points their maximum. *)
Definition spec_total_points (rankings : gmap string Z) (name : string)
    (l : list ArrestRecord) : Z :=
  sum_Z (map (points_of rankings) (filter (fun a => a_name a = name) l)).

Definition spec_worst_offense_points (rankings : gmap string Z) (name : string)
    (l : list ArrestRecord) : Z :=
  max_Z (map (points_of rankings) (filter (fun a => a_name a = name) l)).

(** The loop of [add_entry], from any object and any team dictionary. *)
Definition loop `{so : SetOrder} (team_abbr : string) (st : BadBoyStats) (t : TeamEntry)
    (l : list ArrestRecord) : BadBoyStats * TeamEntry :=
  foldl (add_arrest team_abbr) (st, t) l.

(** The two fields [offenders] and [num_offenders] agree, and no name is
    listed twice. *)
Definition offenders_counted (t : TeamEntry) : Prop :=
  NoDup (offenders t) /\ num_offenders t = Z.of_nat (List.length (offenders t)).

(** Among the defensive arrests, those that score the highest value all
    have one category. *)
Definition unique_worst (rankings : gmap string Z) (l : list ArrestRecord) : Prop :=
  forall b1 b2, b1 ∈ defensive l -> b2 ∈ defensive l ->
    points_of rankings b1 = max_Z (map (points_of rankings) (defensive l)) ->
    points_of rankings b2 = max_Z (map (points_of rankings) (defensive l)) ->
    category_of b1 = category_of b2.

(** The two arrests of the scenario. *)
Definition scenario_arrests : list ArrestRecord :=
  [arrest "John Smith" "LB" "D" "DUI"; arrest "John Smith" "LB" "D" "ASSAULT"].

(** Two defensive players, one arrest each. *)
Definition ames_dui : ArrestRecord := arrest "Al Ames" "LB" "D" "DUI".
Definition baker_theft : ArrestRecord := arrest "Bo Baker" "CB" "D" "THEFT".

(** An object that saves, with one entry in its store. *)
Definition saving_stats : BadBoyStats :=
  mkStats true false false scenario_rankings ∅ ∅ "data/bad_boy_raw_data.json"
          (<["John Smith" := Player (mkPlayer "XYZ" "LB" [("DUI", 5)] 5 (Some "DUI") 5)]> ∅)
          "data/bad_boy_data.json".

(** A web that answers nothing, and two worlds: one without a snapshot
    file, one with the snapshot of [saving_stats]. *)
Definition silent_web : Web := mkWeb (Raise ConnectionError) (fun _ _ _ => Raise ConnectionError).

Definition world_without_snapshot : World :=
  mkWorld (mkFS ∅ ∅) (Ok scenario_rankings) [].

Definition world_with_snapshot : World :=
  mkWorld (mkFS (<["data/bad_boy_data.json" := bad_boy_data saving_stats]> ∅) ∅)
          (Ok scenario_rankings) [].

(** ** Auxiliary definitions for the further properties *)

(** The number of pages asked of one team, given the total of page 1. *)
Definition pages_asked (total_results : Z) : Z :=
  if 20 <? total_results then num_pages_of total_results else 1.

(** A record of the feed with the fields that matter filled in. *)
Definition raw_arrest (first last team_code position category : string) : RawArrest :=
  mkRaw first last team_code "2020-01-01" position "Arrested" category "" "".

(** The object as [__init__] sets it up before it reads any snapshot. *)
Definition initial_stats (data_dir : string) (save offline refresh : bool)
    (rankings : gmap string Z) : BadBoyStats :=
  mkStats save offline refresh rankings ∅ ∅ (data_dir +:+ "/bad_boy_raw_data.json")
          ∅ (data_dir +:+ "/bad_boy_data.json").

(** The loop [for team_abbr in nfl_team_abbreviations] of [__init__]. *)
Definition add_teams `{so : SetOrder} (arrests : list ArrestRecord)
    (teams : list string) (self : BadBoyStats) : BadBoyStats :=
  foldl (fun self team_abbr =>
           add_entry team_abbr (arrests_by_team_get arrests team_abbr) self)
        self teams.

(** The runs of [__init__] that go to the web: a refresh, or a run that is
    not offline and finds no snapshot or an empty one. *)
Definition goes_to_web (data_dir : string) (offline refresh : bool) (w : World) : Prop :=
  refresh = true
  \/ (offline = false
      /\ (store_files (files w) !! (data_dir +:+ "/bad_boy_data.json") = None
          \/ store_files (files w) !! (data_dir +:+ "/bad_boy_data.json") = Some ∅)).

(** A web where two teams have arrests: SEA on three pages, NE on one. *)
Definition sample_web : Web :=
  mkWeb (Ok "nonce")
        (fun _ team_code page =>
           if decide (team_code = "SEA") then
             Ok (mkPage (if decide (page = 1)
                         then [raw_arrest "John" "Smith" "SEA" "LB" "dui"]
                         else [raw_arrest "Al" "Ames" "SEA" "QB" "Assault"]) 41)
           else if decide (team_code = "NE") then
             Ok (mkPage [raw_arrest "Bo" "Baker" "NE" "CB" "DUI"] 1)
           else Ok (mkPage [] 0)).

(** A web whose arrests page answers but whose table endpoint does not. *)
Definition broken_table_web : Web :=
  mkWeb (Ok "nonce") (fun _ _ _ => Raise ConnectionError).

(** A web with no arrests at all. *)
Definition empty_web : Web :=
  mkWeb (Ok "nonce") (fun _ _ _ => Ok (mkPage [] 0)).

(** A page of two records with known positions, and a record with a
    position the table does not have. *)
Definition sample_page : list RawArrest :=
  [raw_arrest "John" "Smith" "SEA" "LB" "dui";
   raw_arrest "Al" "Ames" "Free agent" "QB" "Assault"].

Definition unknown_position_record : RawArrest :=
  raw_arrest "Cy" "Cole" "SEA" "LS" "DUI".

(** The pages of SEA on [sample_web], and the arrests they convert to. *)
Definition sea_pages (page : Z) : Page :=
  mkPage (if decide (page = 1)
          then [raw_arrest "John" "Smith" "SEA" "LB" "dui"]
          else [raw_arrest "Al" "Ames" "SEA" "QB" "Assault"]) 41.

Definition sea_arrests (page : Z) : list ArrestRecord :=
  if decide (page = 1)
  then [mkArrest "John Smith" "SEA" "2020-01-01" "LB" "D" "ARRESTED" "DUI" "" ""]
  else [mkArrest "Al Ames" "SEA" "2020-01-01" "QB" "O" "ARRESTED" "ASSAULT" "" ""].

(** A web that answers for SEA only. *)
Definition half_broken_web : Web :=
  mkWeb (Ok "nonce")
        (fun _ team_code _ =>
           if decide (team_code = "SEA")
           then Ok (mkPage [raw_arrest "John" "Smith" "SEA" "LB" "dui"] 1)
           else Raise ConnectionError).

(** An online run with [save_data] on [sample_web], from no snapshot. *)
Definition sample_run : World * result BadBoyStats :=
  init sample_abbreviations sample_web "data" true false false world_without_snapshot.

Definition sample_run_stats : BadBoyStats :=
  match snd sample_run with
  | Ok self => self
  | Raise _ => fresh_stats ∅
  end.

(** ** The table of contents of the report: [report/pdf/generator.py]

    The class [TableOfContents]. A [Paragraph] is kept as its text and the
    style it is given; a length [x * inch] is kept as the hundredths of an
    inch that [x] stands for; [str] of an integer is its decimal writing. *)

Module Pdf.

Inductive toc_style :=
| toc_style_right
| toc_style_center
| toc_style_left
| toc_style_title_right
| toc_style_title_left.

Inductive cell :=
| Paragraph (text : string) (style : toc_style)
| Text (s : string).

Inductive measure :=
| hundredths_of_inch (n : Z).

(** The switches of [settings.report_settings] that the class reads. *)
Record ReportSettings := mkSettings {
  league_standings_bool : bool;
  league_playoff_probs_bool : bool;
  league_median_standings_bool : bool;
  league_power_rankings_bool : bool;
  league_z_score_rankings_bool : bool;
  league_score_rankings_bool : bool;
  league_coaching_efficiency_rankings_bool : bool;
  league_luck_rankings_bool : bool;
  league_optimal_score_rankings_bool : bool;
  league_bad_boy_rankings_bool : bool;
  league_beef_rankings_bool : bool;
  league_weekly_top_scorers_bool : bool;
  league_weekly_highest_ce_bool : bool;
  report_time_series_charts_bool : bool;
  report_team_stats_bool : bool;
  team_points_by_position_charts_bool : bool;
  team_bad_boy_stats_bool : bool;
  team_beef_stats_bool : bool;
  team_boom_or_bust_bool : bool
}.

(** The fields of the object; a section that is switched off is [None]. *)
Record TableOfContents := mkToc {
  break_ties : bool;
  toc_anchor : Z;
  toc_page : Z;
  toc_metric_section_data : option (list (list cell));
  toc_top_performers_section_data : option (list (list cell));
  toc_chart_section_data : option (list (list cell));
  toc_team_section_data : option (list (list cell));
  toc_appendix_data : option (list (list cell))
}.

(** A call either returns or raises [AttributeError], as [None.append] does. *)
Inductive outcome (A : Type) :=
| Done (a : A)
| AttributeError (attribute : string).

Arguments Done {A} a.
Arguments AttributeError {A} attribute.

Record Table := mkTable {
  table_data : list (list cell);
  colWidths : list measure;
  rowHeights : list measure
}.

Definition section_title_row (title : string) : list cell :=
  [Paragraph ("<b><i>" +:+ title +:+ "</i></b>") toc_style_title_right;
   Text "";
   Paragraph "<b><i>Page</i></b>" toc_style_title_left].

Definition any_metric (s : ReportSettings) : bool :=
  league_standings_bool s
  || league_playoff_probs_bool s
  || league_median_standings_bool s
  || league_power_rankings_bool s
  || league_z_score_rankings_bool s
  || league_score_rankings_bool s
  || league_coaching_efficiency_rankings_bool s
  || league_luck_rankings_bool s
  || league_optimal_score_rankings_bool s
  || league_bad_boy_rankings_bool s
  || league_beef_rankings_bool s.

(** [TableOfContents.__init__]. *)
Definition init (settings : ReportSettings) (break_ties : bool) : TableOfContents :=
  let metrics := any_metric settings in
  mkToc break_ties 0 1
    (if metrics then Some [section_title_row "Metrics"] else None)
    (if league_weekly_top_scorers_bool settings || league_weekly_highest_ce_bool settings
     then Some [section_title_row "Top Performers"] else None)
    (if report_time_series_charts_bool settings
     then Some [section_title_row "Charts"] else None)
    (if report_team_stats_bool settings
        && (team_points_by_position_charts_bool settings
            || team_bad_boy_stats_bool settings
            || team_beef_stats_bool settings
            || team_boom_or_bust_bool settings)
     then Some [section_title_row "Teams"] else None)
    (if metrics then Some [section_title_row "Appendices"] else None).

Definition add_toc_page (pages_to_add : Z) (self : TableOfContents) : TableOfContents :=
  mkToc (break_ties self) (toc_anchor self) (toc_page self + pages_to_add)
        (toc_metric_section_data self) (toc_top_performers_section_data self)
        (toc_chart_section_data self) (toc_team_section_data self)
        (toc_appendix_data self).

Definition format_toc_section (self : TableOfContents) (title color : string) : list cell :=
  [Paragraph ("<a href = #page.html#" +:+ pretty (toc_anchor self) +:+ " color=" +:+ color
              +:+ "><b><u>" +:+ title +:+ "</u></b></a>") toc_style_right;
   Paragraph ". . . . . . . . . . . . . . . . . . . ." toc_style_center;
   Paragraph (pretty (toc_page self)) toc_style_left].

Definition add_metric_section (title : string) (self : TableOfContents)
    : outcome TableOfContents :=
  let color :=
    if break_ties self then
      if decide (title = "Team Score Rankings" \/ title = "Team Coaching Efficiency Rankings")
      then "green" else "blue"
    else "blue" in
  let metric_section := format_toc_section self title color in
  match toc_metric_section_data self with
  | None => AttributeError "append"
  | Some rows =>
      Done (mkToc (break_ties self) (toc_anchor self + 1) (toc_page self)
                  (Some (rows ++ [metric_section])) (toc_top_performers_section_data self)
                  (toc_chart_section_data self) (toc_team_section_data self)
                  (toc_appendix_data self))
  end.

Definition add_top_performers_section (title : string) (self : TableOfContents)
    : outcome TableOfContents :=
  let top_performers_section := format_toc_section self title "blue" in
  match toc_top_performers_section_data self with
  | None => AttributeError "append"
  | Some rows =>
      Done (mkToc (break_ties self) (toc_anchor self + 1) (toc_page self)
                  (toc_metric_section_data self) (Some (rows ++ [top_performers_section]))
                  (toc_chart_section_data self) (toc_team_section_data self)
                  (toc_appendix_data self))
  end.

Definition add_chart_section (title : string) (self : TableOfContents)
    : outcome TableOfContents :=
  let chart_section := format_toc_section self title "blue" in
  match toc_chart_section_data self with
  | None => AttributeError "append"
  | Some rows =>
      Done (mkToc (break_ties self) (toc_anchor self + 1) (toc_page self)
                  (toc_metric_section_data self) (toc_top_performers_section_data self)
                  (Some (rows ++ [chart_section])) (toc_team_section_data self)
                  (toc_appendix_data self))
  end.

Definition add_team_section (team_name : string) (self : TableOfContents)
    : outcome TableOfContents :=
  let team_section := format_toc_section self team_name "blue" in
  match toc_team_section_data self with
  | None => AttributeError "append"
  | Some rows =>
      Done (mkToc (break_ties self) (toc_anchor self + 1) (toc_page self)
                  (toc_metric_section_data self) (toc_top_performers_section_data self)
                  (toc_chart_section_data self) (Some (rows ++ [team_section]))
                  (toc_appendix_data self))
  end.

Definition add_appendix (title : string) (self : TableOfContents)
    : outcome TableOfContents :=
  let appendix_section := format_toc_section self title "blue" in
  match toc_appendix_data self with
  | None => AttributeError "append"
  | Some rows =>
      Done (mkToc (break_ties self) (toc_anchor self + 1) (toc_page self)
                  (toc_metric_section_data self) (toc_top_performers_section_data self)
                  (toc_chart_section_data self) (toc_team_section_data self)
                  (Some (rows ++ [appendix_section])))
  end.

Definition get_current_anchor (self : TableOfContents) : Z := toc_anchor self.

(** The truth value of a section: [None] and the empty list are false. *)
Definition rows_of (section : option (list (list cell))) : list (list cell) :=
  default [] section.

Definition has_rows (section : option (list (list cell))) : bool :=
  match rows_of section with
  | [] => false
  | _ => true
  end.

(** [get_toc]: the heights are collected first, then the rows. *)
Definition get_toc (self : TableOfContents) : Table :=
  let heights (section : option (list (list cell))) (spacer : bool) : list measure :=
    if has_rows section then
      replicate (List.length (rows_of section)) (hundredths_of_inch 25)
      ++ (if spacer then [hundredths_of_inch 5] else [])
    else [] in
  let rows (section : option (list (list cell))) (spacer : bool) : list (list cell) :=
    if has_rows section then
      rows_of section ++ (if spacer then [[Text ""; Text ""; Text ""]] else [])
    else [] in
  let row_heights :=
    heights (toc_metric_section_data self) true
    ++ heights (toc_top_performers_section_data self) true
    ++ heights (toc_chart_section_data self) true
    ++ heights (toc_team_section_data self) true
    ++ heights (toc_appendix_data self) false in
  mkTable
    (rows (toc_metric_section_data self) true
     ++ rows (toc_top_performers_section_data self) true
     ++ rows (toc_chart_section_data self) true
     ++ rows (toc_team_section_data self) true
     ++ rows (toc_appendix_data self) false)
    [hundredths_of_inch 325; hundredths_of_inch 200; hundredths_of_inch 250]
    row_heights.

(** The calls of one report, in the order they are made. *)
Inductive toc_call :=
| AddMetric (title : string)
| AddTopPerformers (title : string)
| AddChart (title : string)
| AddTeam (team_name : string)
| AddAppendix (title : string)
| AddPage.

Definition call (c : toc_call) (self : TableOfContents) : outcome TableOfContents :=
  match c with
  | AddMetric title => add_metric_section title self
  | AddTopPerformers title => add_top_performers_section title self
  | AddChart title => add_chart_section title self
  | AddTeam team_name => add_team_section team_name self
  | AddAppendix title => add_appendix title self
  | AddPage => Done (add_toc_page 1 self)
  end.

Fixpoint calls (cs : list toc_call) (self : TableOfContents) : outcome TableOfContents :=
  match cs with
  | [] => Done self
  | c :: rest =>
      match call c self with
      | Done self' => calls rest self'
      | AttributeError a => AttributeError a
      end
  end.

(** The calls that add a section. *)
Definition adds_section (c : toc_call) : bool :=
  match c with
  | AddPage => false
  | _ => true
  end.

Definition all_rows (self : TableOfContents) : list (list cell) :=
  rows_of (toc_metric_section_data self)
  ++ rows_of (toc_top_performers_section_data self)
  ++ rows_of (toc_chart_section_data self)
  ++ rows_of (toc_team_section_data self)
  ++ rows_of (toc_appendix_data self).


Definition everything_on : ReportSettings :=
  mkSettings true true true true true true true true true true true
             true true true true true true true true.

End Pdf.

(** ** Styles for tied values: [PdfGenerator.set_tied_values_style]

    A table style is the list of its commands. The commands of the list that
    is passed in are only copied, never read, so each is kept as an opaque
    [Given]; the commands the method adds are spelled out, with cells as
    column and row. *)

Module Style.

Inductive color :=
| green
| darkred
| red.

Inductive command :=
| Given (text : string)
| TEXTCOLOR (start_col start_row stop_col stop_row : Z) (c : color)
| FONT (start_col start_row stop_col stop_row : Z) (font : string).

(** The fields of [report_data] that the method reads. *)
Record ReportData := mkReportData {
  num_first_place_for_score : Z;
  num_first_place_for_coaching_efficiency : Z;
  num_first_place_for_luck : Z;
  ties_for_first_for_power_rankings : Z;
  num_first_place_for_bad_boy_rankings : Z;
  num_first_place_for_beef_rankings : Z;
  ties_for_coaching_efficiency : Z
}.

(** The fields of the generator that the method reads or writes. *)
Record PdfGenerator := mkGenerator {
  report_data : ReportData;
  break_ties : bool;
  font_italic : string;
  num_coaching_efficiency_dqs : Z;
  data_for_scores : list (list string);
  style_efficiency_dqs : option (list command)
}.

(** [0 if not x > 0 else x]. *)
Definition positive_or_zero (x : Z) : Z := if 0 <? x then x else 0.

(** The loop [while iterator > 0], which runs [iterator] times, or not at
    all when [iterator] is not positive: [n] is the number of turns left. *)
Fixpoint tied_rows (n : nat) (index : Z) (c : color) (font : string) : list command :=
  match n with
  | O => []
  | S k =>
      [TEXTCOLOR 0 index (-1) index c; FONT 0 index (-1) index font]
      ++ tied_rows k (index + 1) c font
  end.

(** The loop [while eff_dq_count > 0]. *)
Fixpoint dq_rows (n : nat) (dq_index : Z) : list command :=
  match n with
  | O => []
  | S k => TEXTCOLOR 0 dq_index (-1) (-1) red :: dq_rows k (dq_index + 1)
  end.

Definition set_tied_values_style (self : PdfGenerator) (num_ties : Z)
    (table_style_list : list command) (metric_type : string)
    : PdfGenerator * list command :=
  let rd := report_data self in
  let num_first_places :=
    if decide (metric_type = "scores") then
      positive_or_zero (num_first_place_for_score rd)
    else if decide (metric_type = "coaching_efficiency") then
      positive_or_zero (num_first_place_for_coaching_efficiency rd)
    else if decide (metric_type = "luck") then
      positive_or_zero (num_first_place_for_luck rd)
    else if decide (metric_type = "power_ranking") then
      positive_or_zero (ties_for_first_for_power_rankings rd)
    else if decide (metric_type = "bad_boy") then
      positive_or_zero (num_first_place_for_bad_boy_rankings rd)
    else if decide (metric_type = "beef") then
      positive_or_zero (num_first_place_for_beef_rankings rd)
    else num_ties in
  let tied_values_table_style_list :=
    if bool_decide (metric_type = "scores") && break_ties self then
      table_style_list
      ++ [TEXTCOLOR 0 1 (-1) 1 green; FONT 0 1 (-1) 1 (font_italic self)]
    else
      let c := if decide (metric_type = "bad_boy") then darkred else green in
      table_style_list ++ tied_rows (Z.to_nat num_first_places) 1 c (font_italic self) in
  let self :=
    if decide (metric_type = "coaching_efficiency") then
      if 0 <? num_coaching_efficiency_dqs self then
        let dq_index :=
          Z.of_nat (List.length (data_for_scores self))
          - num_coaching_efficiency_dqs self + 1 in
        let efficiencies_dq_table_style_list :=
          if 0 <? ties_for_coaching_efficiency rd
          then tied_values_table_style_list else table_style_list in
        mkGenerator (report_data self) (break_ties self) (font_italic self)
          (num_coaching_efficiency_dqs self) (data_for_scores self)
          (Some (efficiencies_dq_table_style_list
                 ++ dq_rows (Z.to_nat (num_coaching_efficiency_dqs self)) dq_index))
      else self
    else self in
  (self, tied_values_table_style_list).

(** The six metric types the method knows. *)
Definition known_metric_types : list string :=
  ["scores"; "coaching_efficiency"; "luck"; "power_ranking"; "bad_boy"; "beef"].

(** The first places the report data has for a known metric type. *)
Definition first_places_of (rd : ReportData) (metric_type : string) : Z :=
  if decide (metric_type = "scores") then num_first_place_for_score rd
  else if decide (metric_type = "coaching_efficiency")
       then num_first_place_for_coaching_efficiency rd
  else if decide (metric_type = "luck") then num_first_place_for_luck rd
  else if decide (metric_type = "power_ranking") then ties_for_first_for_power_rankings rd
  else if decide (metric_type = "bad_boy") then num_first_place_for_bad_boy_rankings rd
  else num_first_place_for_beef_rankings rd.

(** The two commands that mark one row. *)
Definition mark_row (c : color) (font : string) (row : Z) : list command :=
  [TEXTCOLOR 0 row (-1) row c; FONT 0 row (-1) row font].

(** A generator with three first places for bad boy points, two teams
    disqualified for coaching efficiency, and ten teams. *)
Definition sample_generator : PdfGenerator :=
  mkGenerator (mkReportData 1 2 0 0 3 1 1) false "Helvetica-Oblique" 2
              (replicate 10 ["team"]) None.

End Style.

(** ** Facts about the loop *)

Section AggregatorFacts.

Context {so : SetOrder}.

(** Case analysis on the three tests of the loop body. *)
Ltac add_arrest_cases st t a :=
  unfold add_arrest, single_offense_entry, points_of, category_of;
  cbn [offenses total_points worst_offense worst_offense_points app
       set_bad_boy_data set_raw_bad_boy_data set_unique_crime_categories
       crime_rankings bad_boy_data raw_bad_boy_data
       unique_crime_categories_for_output save_data offline refresh
       raw_bad_boy_data_file_path bad_boy_data_file_path];
  rewrite ?Z.add_0_l;
  destruct (0 <? offense_points_of (crime_rankings st) (Str.upper (a_crime a)));
  destruct (decide (a_position_type a = "D"));
  destruct (t_worst_offense_points t
            <? offense_points_of (crime_rankings st) (Str.upper (a_crime a)));
  try reflexivity; try contradiction.

Lemma add_arrest_fst team_abbr st t a :
  fst (add_arrest team_abbr (st, t) a) =
  mkStats (save_data st) (offline st) (refresh st) (crime_rankings st)
    (<[category_of a := default 0 (crime_rankings st !! category_of a)]>
       (unique_crime_categories_for_output st))
    (<[a_name a := a]> (raw_bad_boy_data st))
    (raw_bad_boy_data_file_path st)
    (<[a_name a := Player (single_offense_entry (crime_rankings st) team_abbr a)]>
       (bad_boy_data st))
    (bad_boy_data_file_path st).
Proof. add_arrest_cases st t a. Qed.

Lemma add_arrest_snd_other team_abbr st t a :
  a_position_type a <> "D" -> snd (add_arrest team_abbr (st, t) a) = t.
Proof. intros Hd. add_arrest_cases st t a. Qed.

Lemma add_arrest_snd_defense team_abbr st t a :
  a_position_type a = "D" ->
  snd (add_arrest team_abbr (st, t) a) =
  let p := points_of (crime_rankings st) a in
  let names := list_of_set (offenders t ++ [a_name a]) in
  mkTeam (t_pos t)
    (<[a_name a := single_offense_entry (crime_rankings st) team_abbr a]> (players t))
    (t_total_points t + p)
    names
    (Z.of_nat (List.length names))
    (if t_worst_offense_points t <? p then Some (category_of a) else t_worst_offense t)
    (if t_worst_offense_points t <? p then p else t_worst_offense_points t).
Proof. intros Hd. add_arrest_cases st t a. Qed.

Lemma loop_cons team_abbr st t a l :
  loop team_abbr st t (a :: l) =
  loop team_abbr (fst (add_arrest team_abbr (st, t) a))
       (snd (add_arrest team_abbr (st, t) a)) l.
Proof. unfold loop. cbn [foldl]. by destruct (add_arrest team_abbr (st, t) a). Qed.

Lemma loop_crime_rankings team_abbr l : forall st t,
  crime_rankings (fst (loop team_abbr st t l)) = crime_rankings st.
Proof.
  induction l as [|a l IH]; intros st t; [reflexivity|].
  rewrite loop_cons, IH, add_arrest_fst. reflexivity.
Qed.

Lemma last_arrest_of_cons name a l :
  last_arrest_of name (a :: l) =
  match last_arrest_of name l with
  | Some b => Some b
  | None => if decide (a_name a = name) then Some a else None
  end.
Proof.
  unfold last_arrest_of. rewrite filter_cons.
  destruct (decide (a_name a = name)).
  - rewrite last_cons. by destruct (last _).
  - by destruct (last _).
Qed.

(** The store after the loop: under each name, the entry of the last arrest
    bearing it. *)
Lemma loop_store team_abbr name l : forall st t,
  bad_boy_data (fst (loop team_abbr st t l)) !! name =
  match last_arrest_of name l with
  | Some a => Some (Player (single_offense_entry (crime_rankings st) team_abbr a))
  | None => bad_boy_data st !! name
  end.
Proof.
  induction l as [|a l IH]; intros st t; [reflexivity|].
  rewrite loop_cons, IH, last_arrest_of_cons, add_arrest_fst.
  cbn [crime_rankings bad_boy_data].
  destruct (last_arrest_of name l); [reflexivity|].
  destruct (decide (a_name a = name)) as [->|Hne].
  - by rewrite lookup_insert_eq.
  - by rewrite lookup_insert_ne.
Qed.

Lemma defensive_cons a l :
  defensive (a :: l) =
  if decide (a_position_type a = "D") then a :: defensive l else defensive l.
Proof. unfold defensive. by rewrite filter_cons. Qed.

Lemma foldr_max_init (w p : Z) (ps : list Z) :
  foldr Z.max (Z.max w p) ps = Z.max p (foldr Z.max w ps).
Proof. induction ps as [|q ps IH]; cbn [foldr]; lia. Qed.

Lemma loop_team_pos team_abbr l : forall st t,
  t_pos (snd (loop team_abbr st t l)) = t_pos t.
Proof.
  induction l as [|a l IH]; intros st t; [reflexivity|].
  rewrite loop_cons, IH.
  destruct (decide (a_position_type a = "D")) as [Hd|Hd].
  - by rewrite add_arrest_snd_defense.
  - by rewrite add_arrest_snd_other.
Qed.

Lemma loop_team_total team_abbr l : forall st t,
  t_total_points (snd (loop team_abbr st t l)) =
  t_total_points t + sum_Z (map (points_of (crime_rankings st)) (defensive l)).
Proof.
  induction l as [|a l IH]; intros st t.
  - change (t_total_points t = t_total_points t + 0). lia.
  - rewrite loop_cons, IH, defensive_cons, add_arrest_fst. cbn [crime_rankings].
    destruct (decide (a_position_type a = "D")) as [Hd|Hd].
    + rewrite add_arrest_snd_defense by done.
      cbn [t_total_points map sum_Z foldr]. unfold sum_Z. lia.
    + by rewrite add_arrest_snd_other.
Qed.

Lemma loop_team_worst_points team_abbr l : forall st t,
  t_worst_offense_points (snd (loop team_abbr st t l)) =
  foldr Z.max (t_worst_offense_points t)
        (map (points_of (crime_rankings st)) (defensive l)).
Proof.
  induction l as [|a l IH]; intros st t; [reflexivity|].
  rewrite loop_cons, IH, defensive_cons, add_arrest_fst. cbn [crime_rankings].
  destruct (decide (a_position_type a = "D")) as [Hd|Hd].
  - rewrite add_arrest_snd_defense by done.
    cbn [t_worst_offense_points map foldr].
    rewrite <- foldr_max_init. f_equal.
    destruct (Z.ltb_spec (t_worst_offense_points t) (points_of (crime_rankings st) a)); lia.
  - by rewrite add_arrest_snd_other.
Qed.

Lemma loop_offenders team_abbr x l : forall st t,
  x ∈ offenders (snd (loop team_abbr st t l)) <->
  x ∈ offenders t \/ x ∈ map a_name (defensive l).
Proof.
  induction l as [|a l IH]; intros st t.
  - cbn. rewrite elem_of_nil. tauto.
  - rewrite loop_cons, IH, defensive_cons.
    destruct (decide (a_position_type a = "D")) as [Hd|Hd].
    + rewrite add_arrest_snd_defense by done. cbn [offenders map].
      rewrite elem_of_list_of_set, elem_of_app, list_elem_of_singleton, elem_of_cons.
      tauto.
    + by rewrite add_arrest_snd_other.
Qed.

Lemma new_team_counted : offenders_counted new_team.
Proof. split; [constructor | reflexivity]. Qed.

Lemma loop_offenders_counted team_abbr l : forall st t,
  offenders_counted t -> offenders_counted (snd (loop team_abbr st t l)).
Proof.
  induction l as [|a l IH]; intros st t Ht; [exact Ht|].
  rewrite loop_cons. apply IH.
  destruct (decide (a_position_type a = "D")) as [Hd|Hd].
  - rewrite add_arrest_snd_defense by done. split; cbn.
    + apply list_of_set_NoDup.
    + reflexivity.
  - by rewrite add_arrest_snd_other.
Qed.

(** [add_entry] on a list that is not empty: the loop, then the team. *)
Lemma add_entry_cons team_abbr a l st :
  add_entry team_abbr (Some (a :: l)) st =
  set_bad_boy_data
    (<[team_abbr := Team (snd (loop team_abbr st new_team (a :: l)))]>
       (bad_boy_data (fst (loop team_abbr st new_team (a :: l)))))
    (fst (loop team_abbr st new_team (a :: l))).
Proof.
  unfold add_entry, loop.
  by destruct (foldl (add_arrest team_abbr) (st, new_team) (a :: l)).
Qed.

Lemma add_entry_team team_abbr a l st :
  bad_boy_data (add_entry team_abbr (Some (a :: l)) st) !! team_abbr =
  Some (Team (snd (loop team_abbr st new_team (a :: l)))).
Proof. rewrite add_entry_cons. cbn [set_bad_boy_data bad_boy_data]. apply lookup_insert_eq. Qed.

Lemma add_entry_player team_abbr a l st name :
  name <> team_abbr ->
  bad_boy_data (add_entry team_abbr (Some (a :: l)) st) !! name =
  match last_arrest_of name (a :: l) with
  | Some b => Some (Player (single_offense_entry (crime_rankings st) team_abbr b))
  | None => bad_boy_data st !! name
  end.
Proof.
  intros Hne. rewrite add_entry_cons. cbn [set_bad_boy_data bad_boy_data].
  rewrite lookup_insert_ne by done. apply loop_store.
Qed.

(** A list obtained from a set whose only element is [x] is [[x]]. *)
Lemma list_of_set_one (l : list string) (x : string) :
  x ∈ l -> (forall y, y ∈ l -> y = x) -> list_of_set l = [x].
Proof.
  intros Hx Hall.
  pose proof (list_of_set_NoDup l) as Hnd.
  assert (Hin : x ∈ list_of_set l) by (by apply elem_of_list_of_set).
  assert (Hall' : forall y, y ∈ list_of_set l -> y = x).
  { intros y Hy. apply Hall. by apply elem_of_list_of_set. }
  destruct (list_of_set l) as [|a [|b r]].
  - by apply elem_of_nil in Hin.
  - f_equal. apply Hall'. apply elem_of_cons. by left.
  - exfalso. apply NoDup_cons in Hnd as [Hnot _]. apply Hnot.
    rewrite (Hall' a) by (apply elem_of_cons; by left).
    rewrite <- (Hall' b) at 1 by (apply elem_of_cons; right; apply elem_of_cons; by left).
    apply elem_of_cons. by left.
Qed.

Lemma last_arrest_of_Some name l :
  name ∈ map a_name l ->
  exists b, last_arrest_of name l = Some b /\ a_name b = name /\ b ∈ l.
Proof.
  intros Hin. unfold last_arrest_of.
  destruct (last (filter (fun a => a_name a = name) l)) as [b|] eqn:E.
  - exists b. split; [reflexivity|].
    apply last_Some_elem_of in E. by apply list_elem_of_filter in E.
  - exfalso. apply last_None in E.
    apply list_elem_of_In, in_map_iff in Hin as (b & Hb & Hbl).
    assert (Hf : b ∈ filter (fun a => a_name a = name) l).
    { apply list_elem_of_filter. split; [done | by apply list_elem_of_In]. }
    rewrite E in Hf. by apply elem_of_nil in Hf.
Qed.

(** *** Rearranging the arrests *)

Lemma sum_Z_Permutation (l1 l2 : list Z) : l1 ≡ₚ l2 -> sum_Z l1 = sum_Z l2.
Proof.
  unfold sum_Z. induction 1 as [|x l1 l2 _ IH|x y l|l1 l2 l3 _ IH1 _ IH2];
    cbn [foldr]; lia.
Qed.

Lemma foldr_max_Permutation (w : Z) (l1 l2 : list Z) :
  l1 ≡ₚ l2 -> foldr Z.max w l1 = foldr Z.max w l2.
Proof.
  induction 1 as [|x l1 l2 _ IH|x y l|l1 l2 l3 _ IH1 _ IH2]; cbn [foldr]; lia.
Qed.

Lemma defensive_Permutation (l1 l2 : list ArrestRecord) :
  l1 ≡ₚ l2 -> defensive l1 ≡ₚ defensive l2.
Proof. intros H. unfold defensive. by rewrite H. Qed.

Lemma defensive_points_Permutation rankings (l1 l2 : list ArrestRecord) :
  l1 ≡ₚ l2 ->
  map (points_of rankings) (defensive l1) ≡ₚ map (points_of rankings) (defensive l2).
Proof. intros H. apply Permutation_map. by apply defensive_Permutation. Qed.

(** The keys of the store after the loop. *)
Lemma loop_dom team_abbr l : forall st t,
  dom (bad_boy_data (fst (loop team_abbr st t l))) =
  dom (bad_boy_data st) ∪ list_to_set (map a_name l).
Proof.
  induction l as [|a l IH]; intros st t.
  - cbn [loop foldl fst map]. rewrite list_to_set_nil. by rewrite (right_id_L ∅ (∪)).
  - rewrite loop_cons, IH, add_arrest_fst. cbn [bad_boy_data map].
    rewrite dom_insert_L, list_to_set_cons.
    rewrite (comm_L (∪) {[a_name a]} (dom (bad_boy_data st))).
    by rewrite (assoc_L (∪)).
Qed.

(** The team's worst offense after the loop is either the one it started
    with, or the category of a defensive arrest that scores the final worst
    offense points, above the initial ones. *)
Lemma loop_team_worst team_abbr l : forall st t,
  (t_worst_offense (snd (loop team_abbr st t l)) = t_worst_offense t
   /\ t_worst_offense_points (snd (loop team_abbr st t l)) = t_worst_offense_points t)
  \/ (exists b, b ∈ defensive l
        /\ t_worst_offense (snd (loop team_abbr st t l)) = Some (category_of b)
        /\ t_worst_offense_points (snd (loop team_abbr st t l))
           = points_of (crime_rankings st) b
        /\ t_worst_offense_points t < points_of (crime_rankings st) b).
Proof.
  induction l as [|a l IH]; intros st t; [by left|].
  rewrite loop_cons, defensive_cons.
  set (st1 := fst (add_arrest team_abbr (st, t) a)).
  set (t1 := snd (add_arrest team_abbr (st, t) a)).
  assert (Hcr : crime_rankings st1 = crime_rankings st)
    by (unfold st1; by rewrite add_arrest_fst).
  destruct (decide (a_position_type a = "D")) as [Hd|Hd].
  - assert (Ht1 : (t_worst_offense t1 = t_worst_offense t
                   /\ t_worst_offense_points t1 = t_worst_offense_points t)
                  \/ (t_worst_offense t1 = Some (category_of a)
                      /\ t_worst_offense_points t1 = points_of (crime_rankings st) a
                      /\ t_worst_offense_points t < points_of (crime_rankings st) a)).
    { unfold t1. rewrite add_arrest_snd_defense by done.
      cbn [t_worst_offense t_worst_offense_points].
      destruct (Z.ltb_spec (t_worst_offense_points t) (points_of (crime_rankings st) a));
        [right | left]; repeat split; done. }
    destruct (IH st1 t1) as [[Hw Hp]|(b & Hb & Hw & Hp & Hlt)].
    + rewrite Hw, Hp.
      destruct Ht1 as [[Hw1 Hp1]|(Hw1 & Hp1 & Hlt1)]; [by left|].
      right. exists a. split; [apply elem_of_cons; by left | done].
    + right. exists b. rewrite Hcr in Hp, Hlt.
      split; [apply elem_of_cons; by right|].
      split; [done|]. split; [done|].
      destruct Ht1 as [[_ Hp1]|(_ & Hp1 & Hlt1)]; lia.
  - assert (Ht1 : t1 = t) by (unfold t1; by rewrite add_arrest_snd_other).
    destruct (IH st1 t1) as [[Hw Hp]|(b & Hb & Hw & Hp & Hlt)].
    + left. by rewrite Hw, Hp, Ht1.
    + right. exists b. rewrite Hcr in Hp, Hlt. by rewrite <- Ht1.
Qed.

End AggregatorFacts.

(** ** The scenario of the specification *)

(** C1. On the scenario (table DUI 5, ASSAULT 10; two arrests of John Smith,
    LB, on team XYZ) [add_entry] leaves the team XYZ with 15 points and one
    offender, and the worst offense ASSAULT with 10 points for both, but the
    player with a total of 10, the points of the second arrest alone, and a
    single recorded offense: not the 15 the scenario expects. *)
Theorem scenario_player_total_is_ten `{so : SetOrder} :
  let st := add_entry "XYZ" (Some scenario_arrests) (fresh_stats scenario_rankings) in
  bad_boy_data st !! "John Smith" =
    Some (Player (mkPlayer "XYZ" "LB" [("ASSAULT", 10)] 10 (Some "ASSAULT") 10))
  /\ exists t, bad_boy_data st !! "XYZ" = Some (Team t)
       /\ t_total_points t = 15 /\ num_offenders t = 1
       /\ t_worst_offense t = Some "ASSAULT" /\ t_worst_offense_points t = 10.
Proof.
  cbv zeta. unfold scenario_arrests. split.
  - rewrite add_entry_player by discriminate. reflexivity.
  - eexists. split; [apply add_entry_team|].
    rewrite !loop_cons. unfold loop. cbn [foldl snd fst].
    rewrite !add_arrest_snd_defense by reflexivity.
    cbn [t_total_points num_offenders t_worst_offense t_worst_offense_points
         offenders new_team app].
    rewrite (list_of_set_one [ "John Smith" ] "John Smith");
      [| apply elem_of_cons; by left
       | by intros y ?%list_elem_of_singleton ].
    rewrite (list_of_set_one [ "John Smith"; "John Smith" ] "John Smith");
      [| apply elem_of_cons; by left
       | intros y Hy; apply elem_of_cons in Hy as [->|Hy]; [done|];
         by apply list_elem_of_singleton in Hy ].
    repeat split; reflexivity.
Qed.

(** C2. The entry of a player does not hold the sum and the maximum over the
    arrests of that player: after the two arrests ASSAULT (10) then DUI (5)
    of one quarterback, total and worst offense points are both 5, where
    the sum is 15 and the maximum 10. *)
Theorem player_entry_is_not_sum_and_max `{so : SetOrder} :
  let l := [arrest "Jane Doe" "QB" "O" "ASSAULT"; arrest "Jane Doe" "QB" "O" "DUI"] in
  let st := add_entry "XYZ" (Some l) (fresh_stats scenario_rankings) in
  spec_total_points scenario_rankings "Jane Doe" l = 15
  /\ spec_worst_offense_points scenario_rankings "Jane Doe" l = 10
  /\ exists p, bad_boy_data st !! "Jane Doe" = Some (Player p)
       /\ total_points p = 5 /\ worst_offense_points p = 5
       /\ offenses p = [("DUI", 5)].
Proof.
  cbv zeta. split; [reflexivity|]. split; [reflexivity|].
  eexists. split.
  - rewrite add_entry_player by discriminate. reflexivity.
  - repeat split; reflexivity.
Qed.

(** C7. In the team entry that [add_entry] stores, [offenders] lists each
    name once, its names are those of the defensive arrests of the call,
    [num_offenders] is the number of distinct names among them, and
    [total_points] is the sum of the points of all defensive arrests, two
    arrests of one player counting twice in the points and once in the
    offenders. *)
Theorem team_num_offenders_is_set_size `{so : SetOrder}
    (team_abbr : string) (a : ArrestRecord) (l : list ArrestRecord) (st : BadBoyStats) :
  exists t,
    bad_boy_data (add_entry team_abbr (Some (a :: l)) st) !! team_abbr = Some (Team t)
    /\ NoDup (offenders t)
    /\ (forall x, x ∈ offenders t <-> x ∈ map a_name (defensive (a :: l)))
    /\ num_offenders t = Z.of_nat (size (list_to_set (offenders t) : gset string))
    /\ num_offenders t
       = Z.of_nat (size (list_to_set (map a_name (defensive (a :: l))) : gset string))
    /\ t_total_points t
       = sum_Z (map (points_of (crime_rankings st)) (defensive (a :: l))).
Proof.
  eexists. split; [apply add_entry_team|].
  destruct (loop_offenders_counted team_abbr (a :: l) st new_team new_team_counted)
    as [Hnd Hnum].
  assert (Hel : forall x, x ∈ offenders (snd (loop team_abbr st new_team (a :: l)))
                          <-> x ∈ map a_name (defensive (a :: l))).
  { intros x. rewrite loop_offenders. cbn [offenders new_team].
    rewrite elem_of_nil. tauto. }
  split; [exact Hnd|]. split; [exact Hel|].
  assert (Hsize : num_offenders (snd (loop team_abbr st new_team (a :: l))) =
                  Z.of_nat (size (list_to_set
                     (offenders (snd (loop team_abbr st new_team (a :: l)))) : gset string))).
  { rewrite Hnum. f_equal. symmetry. by apply size_list_to_set. }
  split; [exact Hsize|]. split.
  - rewrite Hsize. do 2 f_equal. apply set_eq. intros x.
    rewrite !elem_of_list_to_set. apply Hel.
  - rewrite loop_team_total. cbn [t_total_points new_team]. lia.
Qed.

(** C10. Each arrest puts a new one-offense entry under the player's name,
    whatever the store held there; so after [add_entry] the entry of every
    player named in the call (other than under the team's own key, which the
    team entry takes) is that of the last arrest bearing the name, with an
    [offenses] list of length one. *)
Theorem player_entry_is_last_arrest `{so : SetOrder}
    (team_abbr : string) (st : BadBoyStats) :
  (forall t arrest,
     bad_boy_data (fst (add_arrest team_abbr (st, t) arrest)) !! a_name arrest
     = Some (Player (single_offense_entry (crime_rankings st) team_abbr arrest)))
  /\ (forall a l name,
        name ∈ map a_name (a :: l) -> name <> team_abbr ->
        exists b p,
          last_arrest_of name (a :: l) = Some b /\ a_name b = name /\ b ∈ a :: l
          /\ bad_boy_data (add_entry team_abbr (Some (a :: l)) st) !! name
             = Some (Player p)
          /\ p = single_offense_entry (crime_rankings st) team_abbr b
          /\ offenses p = [(category_of b, points_of (crime_rankings st) b)]
          /\ List.length (offenses p) = 1%nat
          /\ total_points p = points_of (crime_rankings st) b).
Proof.
  split.
  - intros t arrest. rewrite add_arrest_fst. cbn [bad_boy_data].
    apply lookup_insert_eq.
  - intros a l name Hin Hne.
    destruct (last_arrest_of_Some name (a :: l) Hin) as (b & Hlast & Hname & Hb).
    exists b, (single_offense_entry (crime_rankings st) team_abbr b).
    split; [exact Hlast|]. split; [exact Hname|]. split; [exact Hb|].
    split; [| repeat split; reflexivity].
    rewrite add_entry_player by done. by rewrite Hlast.
Qed.

Lemma player_entry_is_last_arrest_witness :
  exists b p,
    last_arrest_of "John Smith" scenario_arrests = Some b
    /\ a_name b = "John Smith" /\ b ∈ scenario_arrests
    /\ bad_boy_data (add_entry "XYZ" (Some scenario_arrests)
                       (fresh_stats scenario_rankings)) !! "John Smith"
       = Some (Player p)
    /\ p = single_offense_entry scenario_rankings "XYZ" b
    /\ offenses p = [(category_of b, points_of scenario_rankings b)]
    /\ List.length (offenses p) = 1%nat
    /\ total_points p = points_of scenario_rankings b.
Proof.
  apply (proj2 (player_entry_is_last_arrest "XYZ" (fresh_stats scenario_rankings))
               (arrest "John Smith" "LB" "D" "DUI")
               [arrest "John Smith" "LB" "D" "ASSAULT"] "John Smith").
  - cbn. apply elem_of_cons. left. reflexivity.
  - discriminate.
Defined.

(** ** Order of the arrests *)

(** C3, as stated, fails: with DUI and THEFT both worth 5, two defensive
    arrests of two players give the team the worst offense DUI in one order
    and THEFT in the other, so the two team entries differ. *)
Lemma team_worst_offense_follows_order :
  [ames_dui; baker_theft] ≡ₚ [baker_theft; ames_dui]
  /\ exists t1 t2,
       bad_boy_data (add_entry "XYZ" (Some [ames_dui; baker_theft])
                       (fresh_stats tied_rankings)) !! "XYZ" = Some (Team t1)
       /\ bad_boy_data (add_entry "XYZ" (Some [baker_theft; ames_dui])
                          (fresh_stats tied_rankings)) !! "XYZ" = Some (Team t2)
       /\ t_worst_offense t1 = Some "DUI"
       /\ t_worst_offense t2 = Some "THEFT"
       /\ Team t1 <> Team t2.
Proof.
  split; [apply perm_swap|].
  eexists. eexists. split; [apply add_entry_team|]. split; [apply add_entry_team|].
  assert (H1 : t_worst_offense
                 (snd (loop "XYZ" (fresh_stats tied_rankings) new_team
                         [ames_dui; baker_theft])) = Some "DUI") by reflexivity.
  assert (H2 : t_worst_offense
                 (snd (loop "XYZ" (fresh_stats tied_rankings) new_team
                         [baker_theft; ames_dui])) = Some "THEFT") by reflexivity.
  split; [exact H1|]. split; [exact H2|].
  intros Heq.
  apply (f_equal (fun e => match e with
                           | Team t => t_worst_offense t
                           | Player _ => None
                           end)) in Heq.
  cbn beta iota in Heq. rewrite H1, H2 in Heq. discriminate.
Qed.

(** C3, amended. For two orders of the same arrests, from the same object,
    the stores have the same keys and the team entries agree on
    [total_points], on the names in [offenders], on [num_offenders] and on
    [worst_offense_points]; they agree on [worst_offense] too when the
    defensive arrests that score the highest value all have one category. *)
Theorem team_aggregates_ignore_order `{so : SetOrder}
    (team_abbr : string) (st : BadBoyStats)
    (a1 : ArrestRecord) (l1 : list ArrestRecord)
    (a2 : ArrestRecord) (l2 : list ArrestRecord) :
  a1 :: l1 ≡ₚ a2 :: l2 ->
  let st1 := add_entry team_abbr (Some (a1 :: l1)) st in
  let st2 := add_entry team_abbr (Some (a2 :: l2)) st in
  dom (bad_boy_data st1) = dom (bad_boy_data st2)
  /\ exists t1 t2,
       bad_boy_data st1 !! team_abbr = Some (Team t1)
       /\ bad_boy_data st2 !! team_abbr = Some (Team t2)
       /\ t_pos t1 = t_pos t2
       /\ t_total_points t1 = t_total_points t2
       /\ (forall x, x ∈ offenders t1 <-> x ∈ offenders t2)
       /\ num_offenders t1 = num_offenders t2
       /\ t_worst_offense_points t1 = t_worst_offense_points t2
       /\ (unique_worst (crime_rankings st) (a1 :: l1) ->
           t_worst_offense t1 = t_worst_offense t2).
Proof.
  intros Hperm. cbv zeta.
  pose proof (defensive_Permutation _ _ Hperm) as Hdef.
  pose proof (defensive_points_Permutation (crime_rankings st) _ _ Hperm) as Hpts.
  split.
  { rewrite !add_entry_cons. cbn [set_bad_boy_data bad_boy_data].
    rewrite !dom_insert_L, !loop_dom. do 2 f_equal.
    apply set_eq. intros x. rewrite !elem_of_list_to_set.
    by rewrite (Permutation_map a_name Hperm). }
  eexists. eexists. split; [apply add_entry_team|]. split; [apply add_entry_team|].
  set (t1 := snd (loop team_abbr st new_team (a1 :: l1))).
  set (t2 := snd (loop team_abbr st new_team (a2 :: l2))).
  assert (Hoff : forall x, x ∈ offenders t1 <-> x ∈ offenders t2).
  { intros x. unfold t1, t2. rewrite !loop_offenders.
    by rewrite (Permutation_map a_name Hdef). }
  assert (Hwp : t_worst_offense_points t1 = t_worst_offense_points t2).
  { unfold t1, t2. rewrite !loop_team_worst_points.
    by apply foldr_max_Permutation. }
  split; [unfold t1, t2; by rewrite !loop_team_pos|].
  split; [unfold t1, t2; rewrite !loop_team_total; f_equal;
          by apply sum_Z_Permutation|].
  split; [exact Hoff|].
  split.
  { destruct (loop_offenders_counted team_abbr (a1 :: l1) st new_team new_team_counted)
      as [Hnd1 Hn1].
    destruct (loop_offenders_counted team_abbr (a2 :: l2) st new_team new_team_counted)
      as [Hnd2 Hn2].
    fold t1 in Hnd1, Hn1. fold t2 in Hnd2, Hn2. rewrite Hn1, Hn2. f_equal.
    apply Permutation_length. by apply NoDup_Permutation. }
  split; [exact Hwp|].
  intros Huniq.
  assert (Hmax1 : t_worst_offense_points t1
                  = max_Z (map (points_of (crime_rankings st)) (defensive (a1 :: l1))))
    by (unfold t1; by rewrite loop_team_worst_points).
  destruct (loop_team_worst team_abbr (a1 :: l1) st new_team)
    as [[Hw1 Hp1]|(b1 & Hb1 & Hw1 & Hp1 & Hlt1)];
    destruct (loop_team_worst team_abbr (a2 :: l2) st new_team)
      as [[Hw2 Hp2]|(b2 & Hb2 & Hw2 & Hp2 & Hlt2)];
    fold t1 in Hw1, Hp1; fold t2 in Hw2, Hp2.
  - by rewrite Hw1, Hw2.
  - exfalso. cbn [t_worst_offense_points new_team] in *. lia.
  - exfalso. cbn [t_worst_offense_points new_team] in *. lia.
  - rewrite Hw1, Hw2. f_equal. apply Huniq.
    + exact Hb1.
    + by rewrite Hdef.
    + by rewrite <- Hp1.
    + by rewrite <- Hp2, <- Hwp.
Qed.

Lemma team_aggregates_ignore_order_witness :
  let st1 := add_entry "XYZ" (Some [ames_dui; baker_theft]) (fresh_stats scenario_rankings) in
  let st2 := add_entry "XYZ" (Some [baker_theft; ames_dui]) (fresh_stats scenario_rankings) in
  dom (bad_boy_data st1) = dom (bad_boy_data st2)
  /\ exists t1 t2,
       bad_boy_data st1 !! "XYZ" = Some (Team t1)
       /\ bad_boy_data st2 !! "XYZ" = Some (Team t2)
       /\ t_pos t1 = t_pos t2
       /\ t_total_points t1 = t_total_points t2
       /\ (forall x, x ∈ offenders t1 <-> x ∈ offenders t2)
       /\ num_offenders t1 = num_offenders t2
       /\ t_worst_offense_points t1 = t_worst_offense_points t2
       /\ (unique_worst scenario_rankings [ames_dui; baker_theft] ->
           t_worst_offense t1 = t_worst_offense t2).
Proof.
  apply (team_aggregates_ignore_order "XYZ" (fresh_stats scenario_rankings)
           ames_dui [baker_theft] baker_theft [ames_dui]).
  apply perm_swap.
Defined.

(** ** Lookup *)

Lemma dict_get_pos_player p : dict_get (Player p) "pos" = VStr (pos p).
Proof. reflexivity. Qed.

Lemma dict_get_pos_team t : dict_get (Team t) "pos" = VStr (t_pos t).
Proof. reflexivity. Qed.

Lemma dict_get_num_offenders_player p : dict_get (Player p) "num_offenders" = VNone.
Proof. reflexivity. Qed.

Lemma dict_get_num_offenders_team t :
  dict_get (Team t) "num_offenders" = VInt (num_offenders t).
Proof. reflexivity. Qed.

Section LookupFacts.

Variable nfl_team_abbreviations : list string.
Variable nfl_team_abbreviation_conversions : gmap string string.

Abbreviation player_team_of' := (player_team_of nfl_team_abbreviations nfl_team_abbreviation_conversions).
Abbreviation find_or_create' := (find_or_create nfl_team_abbreviations nfl_team_abbreviation_conversions).
Abbreviation get_stats' := (get_player_bad_boy_stats nfl_team_abbreviations nfl_team_abbreviation_conversions).
Abbreviation get_num_offenders' :=
  (get_player_bad_boy_num_offenders nfl_team_abbreviations nfl_team_abbreviation_conversions).

Lemma find_or_create_hit first last player_team player_pos st e :
  bad_boy_data st !! player_full_name_of first last player_pos = Some e ->
  find_or_create' first last player_team player_pos st = (st, e).
Proof. intros H. unfold find_or_create. by rewrite H. Qed.

Lemma find_or_create_miss first last player_team player_pos st :
  bad_boy_data st !! player_full_name_of first last player_pos = None ->
  find_or_create' first last player_team player_pos st =
  (set_bad_boy_data
     (<[player_full_name_of first last player_pos :=
          Player (default_entry (player_team_of' player_team) player_pos)]>
        (bad_boy_data st)) st,
   Player (default_entry (player_team_of' player_team) player_pos)).
Proof. intros H. unfold find_or_create. by rewrite H. Qed.

(** Without [key_str] the lookup returns the entry itself and cannot raise. *)
Lemma get_stats_whole_entry first last player_team player_pos st :
  get_stats' first last player_team player_pos "" st =
  (fst (find_or_create' first last player_team player_pos st),
   Ok (VEntry (snd (find_or_create' first last player_team player_pos st)))).
Proof.
  unfold get_player_bad_boy_stats.
  by destruct (find_or_create' first last player_team player_pos st).
Qed.

(** Away from team defenses the key is the capitalised full name. *)
Lemma player_full_name_of_player first last player_pos :
  player_pos <> "D/ST" ->
  player_full_name_of first last player_pos =
  Str.strip (capwords_or_empty first
             +:+ (if truthy first && truthy last then " " else "")
             +:+ capwords_or_empty last).
Proof. intros H. unfold player_full_name_of. by destruct (decide _). Qed.

Lemma player_full_name_of_defense first last :
  player_full_name_of first last "D/ST" = disabled_defense_key.
Proof. reflexivity. Qed.

(** A team entry found under the key gives its count. *)
Lemma num_offenders_of_team first last player_team player_pos st t :
  bad_boy_data st !! player_full_name_of first last player_pos = Some (Team t) ->
  t_pos t = "D/ST" ->
  get_num_offenders' first last player_team player_pos st
  = (st, VInt (num_offenders t)).
Proof.
  intros H Hp. unfold get_player_bad_boy_num_offenders.
  rewrite (find_or_create_hit _ _ _ _ _ _ H).
  rewrite dict_get_pos_team, dict_get_num_offenders_team, Hp. reflexivity.
Qed.

(** A position other than D/ST that misses the store gives 0. *)
Lemma num_offenders_of_player_miss first last player_team player_pos st :
  player_pos <> "D/ST" ->
  bad_boy_data st !! player_full_name_of first last player_pos = None ->
  snd (get_num_offenders' first last player_team player_pos st) = VInt 0.
Proof.
  intros Hp H. unfold get_player_bad_boy_num_offenders.
  rewrite (find_or_create_miss _ _ _ _ _ H).
  rewrite dict_get_pos_player. cbn [is_str pos default_entry].
  by rewrite bool_decide_eq_false_2.
Qed.

End LookupFacts.

(** C4. When the key of an identity (the capitalised full name, or the
    stand-in key for position D/ST) is not in the store, the lookup does not
    fail: it returns the zero entry with the normalised team and the
    position, stores it under the key and leaves every other key as it was;
    a second lookup of the same identity returns the same entry and changes
    nothing. The same holds for the value selected by any [key_str]. *)
Theorem lookup_miss_creates_then_repeats
    (nfl_team_abbreviations : list string)
    (nfl_team_abbreviation_conversions : gmap string string)
    (first last player_team : option string) (player_pos key_str : string)
    (st : BadBoyStats) :
  let get := get_player_bad_boy_stats nfl_team_abbreviations
               nfl_team_abbreviation_conversions first last player_team player_pos in
  let key := player_full_name_of first last player_pos in
  let zero := mkPlayer (player_team_of nfl_team_abbreviations
                          nfl_team_abbreviation_conversions player_team)
                       player_pos [] 0 None 0 in
  bad_boy_data st !! key = None ->
  snd (get "" st) = Ok (VEntry (Player zero))
  /\ bad_boy_data (fst (get "" st)) !! key = Some (Player zero)
  /\ (forall k, k <> key -> bad_boy_data (fst (get "" st)) !! k = bad_boy_data st !! k)
  /\ get "" (fst (get "" st)) = (fst (get "" st), Ok (VEntry (Player zero)))
  /\ snd (get key_str st) = select (Player zero) key_str
  /\ get key_str (fst (get key_str st)) = (fst (get key_str st), select (Player zero) key_str).
Proof.
  cbv zeta. intros Hmiss.
  assert (Hany : forall k,
    get_player_bad_boy_stats nfl_team_abbreviations nfl_team_abbreviation_conversions
      first last player_team player_pos k st =
    (set_bad_boy_data
       (<[player_full_name_of first last player_pos :=
            Player (default_entry (player_team_of nfl_team_abbreviations
                      nfl_team_abbreviation_conversions player_team) player_pos)]>
          (bad_boy_data st)) st,
     select (Player (default_entry (player_team_of nfl_team_abbreviations
                      nfl_team_abbreviation_conversions player_team) player_pos)) k)).
  { intros k. unfold get_player_bad_boy_stats.
    by rewrite (find_or_create_miss _ _ _ _ _ _ _ Hmiss). }
  assert (Hagain : forall k st',
    bad_boy_data st' !! player_full_name_of first last player_pos
      = Some (Player (default_entry (player_team_of nfl_team_abbreviations
                      nfl_team_abbreviation_conversions player_team) player_pos)) ->
    get_player_bad_boy_stats nfl_team_abbreviations nfl_team_abbreviation_conversions
      first last player_team player_pos k st' =
    (st', select (Player (default_entry (player_team_of nfl_team_abbreviations
                      nfl_team_abbreviation_conversions player_team) player_pos)) k)).
  { intros k st' Hhit. unfold get_player_bad_boy_stats.
    by rewrite (find_or_create_hit _ _ _ _ _ _ _ _ Hhit). }
  rewrite !Hany. cbn [fst snd set_bad_boy_data bad_boy_data].
  split; [reflexivity|].
  split; [apply lookup_insert_eq|].
  split; [intros k Hk; by apply lookup_insert_ne|].
  split; [apply Hagain; cbn; apply lookup_insert_eq|].
  split; [reflexivity|].
  apply Hagain. cbn. apply lookup_insert_eq.
Qed.

Lemma lookup_miss_creates_then_repeats_witness :
  let get := get_player_bad_boy_stats sample_abbreviations sample_conversions
               (Some "john") (Some "smith") (Some "jac") "LB" in
  let st := fresh_stats scenario_rankings in
  let zero := mkPlayer "JAX" "LB" [] 0 None 0 in
  bad_boy_data st !! "John Smith" = None
  /\ snd (get "" st) = Ok (VEntry (Player zero))
  /\ bad_boy_data (fst (get "" st)) !! "John Smith" = Some (Player zero)
  /\ (forall k, k <> "John Smith" ->
        bad_boy_data (fst (get "" st)) !! k = bad_boy_data st !! k)
  /\ get "" (fst (get "" st)) = (fst (get "" st), Ok (VEntry (Player zero)))
  /\ snd (get "total_points" st) = select (Player zero) "total_points"
  /\ get "total_points" (fst (get "total_points" st))
     = (fst (get "total_points" st), select (Player zero) "total_points").
Proof.
  split; [reflexivity|].
  apply (lookup_miss_creates_then_repeats sample_abbreviations sample_conversions
           (Some "john") (Some "smith") (Some "jac") "LB" "total_points"
           (fresh_stats scenario_rankings)).
  reflexivity.
Defined.

(** C5, as stated, fails: a team code that is neither an abbreviation nor a
    key of the conversion table is recorded in upper case, not as ["?"]. *)
Lemma unknown_team_is_recorded_as_given :
("XYZ" ∉ sample_abbreviations)
  /\ sample_conversions !! "XYZ" = None
  /\ player_team_of sample_abbreviations sample_conversions (Some "xyz") = "XYZ"
  /\ snd (get_player_bad_boy_stats sample_abbreviations sample_conversions
            (Some "john") (Some "smith") (Some "xyz") "QB" "team"
            (fresh_stats scenario_rankings)) = Ok (VStr "XYZ")
  /\ "XYZ" <> "?".
Proof.
  split.
  { intros H. unfold sample_abbreviations in H.
    repeat (apply elem_of_cons in H as [H|H]; [discriminate|]).
    by apply elem_of_nil in H. }
  repeat split; try reflexivity. discriminate.
Qed.

(** C5, amended. The team recorded by a lookup that misses is the value of
    [player_team]: the upper-cased code when that is an abbreviation; the
    table's conversion when it is not and the table has one, so an alias is
    recorded as its abbreviation, the same as for the abbreviation itself;
    the upper-cased code unchanged when it is unknown and not empty; and
    ["?"] for an absent or empty code, the table having no entry for ["?"]. *)
Theorem team_is_upper_cased_then_converted
    (nfl_team_abbreviations : list string)
    (nfl_team_abbreviation_conversions : gmap string string) :
  let player_team := player_team_of nfl_team_abbreviations
                       nfl_team_abbreviation_conversions in
  (forall code, code <> "" -> Str.upper code ∈ nfl_team_abbreviations ->
     player_team (Some code) = Str.upper code)
  /\ (forall alias abbr, alias <> "" ->
        Str.upper alias ∉ nfl_team_abbreviations ->
        nfl_team_abbreviation_conversions !! Str.upper alias = Some abbr ->
        player_team (Some alias) = abbr
        /\ (abbr <> "" -> abbr ∈ nfl_team_abbreviations -> Str.upper abbr = abbr ->
            player_team (Some alias) = player_team (Some abbr)))
  /\ (forall code, code <> "" ->
        Str.upper code ∉ nfl_team_abbreviations ->
        nfl_team_abbreviation_conversions !! Str.upper code = None ->
        player_team (Some code) = Str.upper code)
  /\ (forall absent, absent = None \/ absent = Some "" ->
        "?" ∈ nfl_team_abbreviations \/ nfl_team_abbreviation_conversions !! "?" = None ->
        player_team absent = "?")
  /\ (forall first last code player_pos st,
        bad_boy_data st !! player_full_name_of first last player_pos = None ->
        exists p,
          snd (find_or_create nfl_team_abbreviations nfl_team_abbreviation_conversions
                 first last code player_pos st) = Player p
          /\ team p = player_team code).
Proof.
  cbv zeta.
  assert (Htruthy : forall code, code <> "" -> truthy (Some code) = true).
  { intros [|c r] H; [done | reflexivity]. }
  split; [|split; [|split; [|split]]].
  - intros code Hne Hin. unfold player_team_of. rewrite (Htruthy _ Hne).
    by rewrite decide_True.
  - intros alias abbr Hne Hnot Hconv.
    assert (Halias : player_team_of nfl_team_abbreviations
                       nfl_team_abbreviation_conversions (Some alias) = abbr).
    { unfold player_team_of. rewrite (Htruthy _ Hne).
      rewrite decide_False by done. by rewrite Hconv. }
    split; [exact Halias|].
    intros Hne' Hin Hup. rewrite Halias.
    unfold player_team_of. rewrite (Htruthy _ Hne'), Hup.
    by rewrite decide_True.
  - intros code Hne Hnot Hconv. unfold player_team_of. rewrite (Htruthy _ Hne).
    rewrite decide_False by done. by rewrite Hconv.
  - intros absent Habs Hq.
    assert (Hstart : player_team_of nfl_team_abbreviations
                       nfl_team_abbreviation_conversions absent =
                     if decide ("?" ∈ nfl_team_abbreviations) then "?"
                     else match nfl_team_abbreviation_conversions !! "?" with
                          | Some converted => converted
                          | None => "?"
                          end).
    { by destruct Habs as [-> | ->]. }
    rewrite Hstart. destruct (decide ("?" ∈ nfl_team_abbreviations)); [done|].
    destruct Hq as [Hq|Hq]; [done | by rewrite Hq].
  - intros first last code player_pos st Hmiss.
    rewrite (find_or_create_miss _ _ _ _ _ _ _ Hmiss).
    eexists. split; reflexivity.
Qed.

Lemma team_is_upper_cased_then_converted_witness :
  let player_team := player_team_of sample_abbreviations sample_conversions in
  player_team (Some "sea") = "SEA"
  /\ player_team (Some "jac") = "JAX"
  /\ player_team (Some "jac") = player_team (Some "JAX")
  /\ player_team (Some "xyz") = "XYZ"
  /\ player_team None = "?"
  /\ player_team (Some "") = "?".
Proof.
  destruct (team_is_upper_cased_then_converted sample_abbreviations sample_conversions)
    as (Hknown & Halias & Hunknown & Habsent & _).
  assert (Hsea : "SEA" ∈ sample_abbreviations).
  { unfold sample_abbreviations. do 4 (apply elem_of_cons; right).
    apply elem_of_cons. left. reflexivity. }
  assert (Hjax : "JAX" ∈ sample_abbreviations).
  { unfold sample_abbreviations. apply elem_of_cons. right.
    apply elem_of_cons. left. reflexivity. }
  assert (Hnot : forall code : string,
             code <> "ARI" -> code <> "JAX" -> code <> "LAR" -> code <> "NE" ->
             code <> "SEA" -> code <> "WAS" -> code ∉ sample_abbreviations).
  { intros code ? ? ? ? ? ? H. unfold sample_abbreviations in H.
    repeat (apply elem_of_cons in H as [H|H]; [contradiction|]).
    apply elem_of_nil in H. exact H. }
  assert (Hjac : Str.upper "jac" ∉ sample_abbreviations)
    by (apply Hnot; discriminate).
  destruct (Halias "jac" "JAX" ltac:(discriminate) Hjac eq_refl) as [Hconv Hsame].
  cbv zeta. split; [|split; [|split; [|split; [|split]]]].
  - apply (Hknown "sea"); [discriminate | exact Hsea].
  - exact Hconv.
  - apply Hsame; [discriminate | exact Hjax | reflexivity].
  - apply (Hunknown "xyz"); [discriminate | apply Hnot; discriminate | reflexivity].
  - apply (Habsent None); [left; reflexivity | right; reflexivity].
  - apply (Habsent (Some "")); [right; reflexivity | right; reflexivity].
Defined.

(** C6. A lookup for position D/ST that misses the store stores the default
    player dictionary, whose ["pos"] is ["D/ST"] and which has no
    ["num_offenders"] key: the offender count returned is [None], not an
    integer. *)
Theorem num_offenders_of_missed_defense_is_none
    (nfl_team_abbreviations : list string)
    (nfl_team_abbreviation_conversions : gmap string string)
    (first last player_team : option string) (st : BadBoyStats) :
  snd (get_player_bad_boy_num_offenders nfl_team_abbreviations
         nfl_team_abbreviation_conversions first last player_team "D/ST"
         (set_bad_boy_data ∅ st)) = VNone
  /\ snd (get_player_bad_boy_num_offenders sample_abbreviations sample_conversions
            None None (Some "SEA") "D/ST" (fresh_stats scenario_rankings)) = VNone.
Proof.
  split; [|reflexivity].
  unfold get_player_bad_boy_num_offenders.
  rewrite find_or_create_miss by (cbn; apply lookup_empty).
  rewrite dict_get_pos_player, dict_get_num_offenders_player. reflexivity.
Qed.

(** ** Snapshot files *)

(** C8. With [save_data] set, what [open_bad_boy_data] reads from the path
    after [save_bad_boy_data] has written there is the store that was
    saved, whatever the object that opens it held before. *)
Theorem save_then_open_gives_back_store (st st' : BadBoyStats) (fs : FileSystem) :
  save_data st = true ->
  bad_boy_data_file_path st' = bad_boy_data_file_path st ->
  bad_boy_data (open_bad_boy_data (save_bad_boy_data st fs) st') = bad_boy_data st
  /\ (forall name,
        bad_boy_data (open_bad_boy_data (save_bad_boy_data st fs) st') !! name
        = bad_boy_data st !! name).
Proof.
  intros Hsave Hpath.
  assert (H : bad_boy_data (open_bad_boy_data (save_bad_boy_data st fs) st')
              = bad_boy_data st).
  { unfold open_bad_boy_data, save_bad_boy_data. rewrite Hsave, Hpath.
    cbn [store_files]. by rewrite lookup_insert_eq. }
  split; [exact H | intros name; by rewrite H].
Qed.

(** Without [save_data] nothing is written. *)
Lemma save_without_flag (st : BadBoyStats) (fs : FileSystem) :
  save_data st = false -> save_bad_boy_data st fs = fs.
Proof. intros H. unfold save_bad_boy_data. by rewrite H. Qed.

Lemma save_then_open_gives_back_store_witness :
  let fs := save_bad_boy_data saving_stats (mkFS ∅ ∅) in
  bad_boy_data (open_bad_boy_data fs (fresh_stats ∅)) = bad_boy_data saving_stats
  /\ (forall name,
        bad_boy_data (open_bad_boy_data fs (fresh_stats ∅)) !! name
        = bad_boy_data saving_stats !! name).
Proof.
  apply (save_then_open_gives_back_store saving_stats (fresh_stats ∅) (mkFS ∅ ∅));
    reflexivity.
Defined.

(** ** Run modes *)

Lemma is_empty_dict_true {V} (d : gmap string V) : is_empty_dict d = true <-> d = ∅.
Proof.
  unfold is_empty_dict. rewrite Nat.eqb_eq. apply map_size_empty_iff.
Qed.

Lemma is_empty_dict_false {V} (d : gmap string V) : is_empty_dict d = false <-> d <> ∅.
Proof.
  rewrite <- is_empty_dict_true. destruct (is_empty_dict d); split; congruence.
Qed.

(** C9. Offline and without refresh, with the scoring table at hand:
    when the snapshot file is missing or holds an empty store, [__init__]
    raises the error about missing saved data; when it holds a store that is
    not empty, [__init__] returns the object with that store, sends no
    request and writes no file, whatever the web would answer. *)
Theorem offline_needs_saved_data `{so : SetOrder}
    (nfl_team_abbreviations : list string) (web : Web)
    (data_dir : string) (save : bool) (w : World) (rankings : gmap string Z) :
  crime_categories_resource w = Ok rankings ->
  let path := data_dir +:+ "/bad_boy_data.json" in
  let run := init nfl_team_abbreviations web data_dir save true false w in
  (store_files (files w) !! path = None \/ store_files (files w) !! path = Some ∅ ->
   run = (w, Raise (missing_saved_data path)))
  /\ (forall d, store_files (files w) !! path = Some d -> d <> ∅ ->
        exists self, run = (w, Ok self)
          /\ bad_boy_data self = d
          /\ crime_rankings self = rankings
          /\ requests (fst run) = requests w
          /\ files (fst run) = files w).
Proof.
  intros Hres. cbv zeta. unfold init. rewrite Hres.
  cbn [negb orb]. unfold open_bad_boy_data. cbn [bad_boy_data_file_path].
  split.
  - intros [Hnone|Hempty].
    + rewrite Hnone. cbn [bad_boy_data].
      rewrite (proj2 (is_empty_dict_true ∅)) by reflexivity. reflexivity.
    + rewrite Hempty. cbn [set_bad_boy_data bad_boy_data].
      rewrite (proj2 (is_empty_dict_true ∅)) by reflexivity. reflexivity.
  - intros d Hd Hne. rewrite Hd. cbn [set_bad_boy_data bad_boy_data].
    rewrite (proj2 (is_empty_dict_false d)) by exact Hne.
    eexists. split; [reflexivity|]. repeat split; reflexivity.
Qed.

Lemma offline_needs_saved_data_witness :
  init sample_abbreviations silent_web "data" false true false world_without_snapshot
  = (world_without_snapshot, Raise (missing_saved_data "data/bad_boy_data.json"))
  /\ exists self,
       init sample_abbreviations silent_web "data" false true false world_with_snapshot
       = (world_with_snapshot, Ok self)
       /\ bad_boy_data self = bad_boy_data saving_stats.
Proof.
  split.
  - apply (offline_needs_saved_data sample_abbreviations silent_web "data" false
             world_without_snapshot scenario_rankings eq_refl).
    left. reflexivity.
  - destruct (proj2 (offline_needs_saved_data sample_abbreviations silent_web "data" false
                       world_with_snapshot scenario_rankings eq_refl)
                    (bad_boy_data saving_stats) eq_refl)
      as (self & Hrun & Hd & _).
    + intros H. apply (f_equal (fun m => m !! "John Smith")) in H. discriminate H.
    + exists self. split; [exact Hrun | exact Hd].
Defined.

(** * Further properties of the code *)

(** ** Upper case, words and white space *)

Lemma upper_char_idem (c : ascii) : Str.upper_char (Str.upper_char c) = Str.upper_char c.
Proof. destruct c as [[] [] [] [] [] [] [] []]; reflexivity. Qed.



Lemma upper_idem (s : string) : Str.upper (Str.upper s) = Str.upper s.
Proof.
  unfold Str.upper. induction s as [|c s IH]; cbn [Str.map_chars]; [reflexivity|].
  by rewrite upper_char_idem, IH.
Qed.







(** ** Records of the feed *)

Lemma position_type_codes (position position_type : string) :
  position_types !! position = Some position_type ->
  position_type ∈ ["D"; "O"; "S"; "L"; "C"].
Proof.
  intros H. unfold position_types in H. apply elem_of_list_to_map_2 in H.
  repeat (apply elem_of_cons in H as [H|H];
          [injection H as _ ->; rewrite !elem_of_cons;
           repeat ((left; reflexivity) || right) |]).
  by apply elem_of_nil in H.
Qed.

Lemma arrest_of_raw_Ok (arrest : RawArrest) (a : ArrestRecord) :
  arrest_of_raw arrest = Ok a ->
  a_name a = r_First_name arrest +:+ " " +:+ r_Last_name arrest
  /\ a_position a = r_Position arrest
  /\ position_types !! r_Position arrest = Some (a_position_type a)
  /\ a_crime a = Str.upper (r_Category arrest)
  /\ a_team a = (if decide (r_Team arrest = "Free agent" \/ r_Team arrest = "Free Agent")
                 then "FA" else r_Team arrest).
Proof.
  unfold arrest_of_raw. destruct (position_types !! r_Position arrest) as [pt|]; [|done].
  intros [= <-]. repeat split; reflexivity.
Qed.

(** X1. A page of the feed whose positions are all in the position table is
    converted record by record, in order; every arrest built has one of the
    five position types, a team that is not a spelling of "Free agent", and a
    crime already in upper case, so that [add_entry] reads it unchanged. *)
Theorem page_with_known_positions_converts (arrests_data : list RawArrest) :
  Forall (fun arrest => is_Some (position_types !! r_Position arrest)) arrests_data ->
  exists arrests,
    arrests_of_page arrests_data = Ok arrests
    /\ Forall2 (fun arrest a => arrest_of_raw arrest = Ok a) arrests_data arrests
    /\ List.length arrests = List.length arrests_data
    /\ Forall (fun a =>
                 a_position_type a ∈ ["D"; "O"; "S"; "L"; "C"]
                 /\ a_team a <> "Free agent" /\ a_team a <> "Free Agent"
                 /\ category_of a = a_crime a) arrests.
Proof.
  induction 1 as [|arrest l [pt Hpt] _ (arrests & Hok & Hall & Hlen & Hshape)].
  - exists []. repeat split; constructor.
  - destruct (arrest_of_raw arrest) as [a|e] eqn:Ha;
      [| unfold arrest_of_raw in Ha; rewrite Hpt in Ha; discriminate].
    exists (a :: arrests). split; [cbn [arrests_of_page]; by rewrite Ha, Hok|].
    split; [by constructor|]. split; [cbn; by rewrite Hlen|].
    constructor; [|exact Hshape].
    destruct (arrest_of_raw_Ok _ _ Ha) as (_ & _ & Hty & Hcrime & Hteam).
    split; [by eapply position_type_codes|].
    split; [|split].
    + rewrite Hteam. destruct (decide _) as [|Hn]; [discriminate | tauto].
    + rewrite Hteam. destruct (decide _) as [|Hn]; [discriminate | tauto].
    + unfold category_of. rewrite Hcrime. apply upper_idem.
Qed.

(** X2. The first record of a page whose position is not in the position
    table makes the conversion of the page raise [KeyError] with that
    position; the records after it are not looked at. *)
Theorem page_with_unknown_position_raises
    (before : list RawArrest) (arrest : RawArrest) (after : list RawArrest) :
  Forall (fun arrest => is_Some (position_types !! r_Position arrest)) before ->
  position_types !! r_Position arrest = None ->
  arrests_of_page (before ++ arrest :: after) = Raise (KeyError (r_Position arrest)).
Proof.
  intros Hbefore Hnone. induction Hbefore as [|x l [pt Hpt] _ IH].
  - cbn [app arrests_of_page]. unfold arrest_of_raw. by rewrite Hnone.
  - cbn [app arrests_of_page]. rewrite IH.
    unfold arrest_of_raw. by rewrite Hpt.
Qed.

(** ** Fetching *)

Lemma num_pages_of_bounds (total_results : Z) :
  20 * (num_pages_of total_results - 1) < total_results <= 20 * num_pages_of total_results.
Proof.
  unfold num_pages_of.
  pose proof (Z.div_mod total_results 20 ltac:(lia)) as Hdm.
  pose proof (Z.mod_pos_bound total_results 20 ltac:(lia)) as Hb.
  destruct (Z.ltb_spec 0 (total_results mod 20)); lia.
Qed.

(** X3. When a team has more than 20 results, the number of pages asked for
    is the least number of pages of 20 that hold them all, and at least 2. *)
Theorem num_pages_is_least_cover (total_results : Z) :
  20 < total_results ->
  2 <= num_pages_of total_results
  /\ total_results <= 20 * num_pages_of total_results
  /\ (forall n, total_results <= 20 * n -> num_pages_of total_results <= n).
Proof.
  intros Hgt. pose proof (num_pages_of_bounds total_results) as [Hlo Hhi].
  repeat split; [lia | lia | intros n Hn; lia].
Qed.

Lemma for_each_ok {A B} (f : A -> Fetch (list B)) (sent : A -> list request)
    (got : A -> list B) (l : list A) :
  (forall a, a ∈ l -> forall log, f a log = (log ++ sent a, Ok (got a))) ->
  forall acc log,
    for_each f l acc log = (log ++ List.concat (map sent l), Ok (acc ++ List.concat (map got l))).
Proof.
  induction l as [|a l IH]; intros Hf acc log.
  - cbn. by rewrite !app_nil_r.
  - cbn [for_each map List.concat]. unfold bind.
    rewrite (Hf a) by (apply elem_of_cons; by left).
    rewrite IH by (intros b Hb; apply Hf, elem_of_cons; by right).
    by rewrite !app_assoc.
Qed.

Lemma for_each_raise {A B} (f : A -> Fetch (list B)) (sent : A -> list request)
    (got : A -> list B) (before : list A) (a : A) (after : list A)
    (sent_a : list request) (e : exn) :
  (forall b, b ∈ before -> forall log, f b log = (log ++ sent b, Ok (got b))) ->
  (forall log, f a log = (log ++ sent_a, Raise e)) ->
  forall acc log,
    for_each f (before ++ a :: after) acc log
    = (log ++ List.concat (map sent before) ++ sent_a, Raise e).
Proof.
  induction before as [|b before IH]; intros Hf Ha acc log.
  - cbn [app for_each map List.concat]. unfold bind. by rewrite Ha.
  - cbn [app for_each map List.concat]. unfold bind.
    rewrite (Hf b) by (apply elem_of_cons; by left).
    rewrite IH by (first [exact Ha | intros c Hc; apply Hf, elem_of_cons; by right]).
    by rewrite !app_assoc.
Qed.

Section FetchFacts.

Variable web : Web.

Lemma fetch_page_ok security team page res_json arrests log :
  fetch_table web security team page = Ok res_json ->
  arrests_of_page (Result res_json) = Ok arrests ->
  fetch_page web security team page log
  = (log ++ [PostFetchTable security team page], Ok (arrests, totalResults res_json)).
Proof.
  intros Hpost Hconv. unfold fetch_page, bind, send, lift, ret.
  by rewrite Hpost, Hconv.
Qed.

End FetchFacts.

Lemma concat_singletons {A B} (q : A -> B) (l : list A) :
  List.concat (map (fun a => [q a]) l) = map q l.
Proof. induction l as [|a l IH]; cbn; [reflexivity | by rewrite IH]. Qed.

(** X4. When every page of a team is answered and converts, [fetch_team]
    asks for page 1 and then, if page 1 reports more than 20 results, for
    pages 2 up to the number of pages that holds them all, in that order and
    nothing else; the arrests come back in page order. *)
Theorem team_pages_are_fetched_in_order (web : Web) (security team : string)
    (pages : Z -> Page) (arrests : Z -> list ArrestRecord) (log : list request) :
  (forall page, 1 <= page -> fetch_table web security team page = Ok (pages page)) ->
  (forall page, 1 <= page -> arrests_of_page (Result (pages page)) = Ok (arrests page)) ->
  let n := pages_asked (totalResults (pages 1)) in
  1 <= n
  /\ fetch_team web security team log
     = (log ++ map (PostFetchTable security team) (seqZ 1 n),
        Ok (List.concat (map arrests (seqZ 1 n)))).
Proof.
  intros Hpost Hconv n. unfold fetch_team, bind.
  rewrite (fetch_page_ok web security team 1 (pages 1) (arrests 1) log)
    by (first [apply Hpost | apply Hconv]; lia).
  subst n. unfold pages_asked.
  destruct (Z.ltb_spec 20 (totalResults (pages 1))) as [Hgt|Hle].
  - pose proof (num_pages_of_bounds (totalResults (pages 1))) as [Hlo Hhi].
    assert (Hn : 2 <= num_pages_of (totalResults (pages 1))) by lia.
    split; [lia|].
    rewrite (for_each_ok _ (fun page => [PostFetchTable security team page]) arrests).
    + rewrite concat_singletons.
      rewrite (seqZ_cons 1 (num_pages_of (totalResults (pages 1)))) by lia.
      cbn [map List.concat]. rewrite <- !app_assoc. reflexivity.
    + intros page Hpage log'. apply elem_of_seqZ in Hpage. unfold bind.
      rewrite (fetch_page_ok web security team page (pages page) (arrests page) log')
        by (first [apply Hpost | apply Hconv]; lia).
      reflexivity.
  - split; [lia|]. unfold ret. change (seqZ 1 1) with [1].
    cbn [map List.concat]. by rewrite app_nil_r.
Qed.

(** X5. The teams are fetched one after the other, and the first team whose
    fetch raises ends the whole fetch with that exception: the teams after
    it are not asked for, and the arrests already fetched are not
    returned. *)
Theorem fetch_stops_at_first_failing_team (web : Web) (security : string)
    (before : list string) (team : string) (after : list string)
    (sent : string -> list request) (got : string -> list ArrestRecord)
    (sent_last : list request) (e : exn) (log : list request) :
  ajax_nonce_of_page web = Ok security ->
  (forall t, t ∈ before ->
     forall log', fetch_team web security t log' = (log' ++ sent t, Ok (got t))) ->
  (forall log', fetch_team web security team log' = (log' ++ sent_last, Raise e)) ->
  fetch_all_arrests (before ++ team :: after) web log
  = (log ++ [GetArrestsPage] ++ List.concat (map sent before) ++ sent_last, Raise e).
Proof.
  intros Hnonce Hbefore Hteam. unfold fetch_all_arrests, bind, send. rewrite Hnonce.
  rewrite (for_each_raise (fetch_team web security) sent got before team after
             sent_last e Hbefore Hteam).
  by rewrite <- !app_assoc.
Qed.

(** ** More on [add_entry] *)

Section MoreAggregatorFacts.

Context {so : SetOrder}.

Lemma loop_unique team_abbr category l : forall st t,
  unique_crime_categories_for_output (fst (loop team_abbr st t l)) !! category =
  if decide (category ∈ map category_of l)
  then Some (offense_points_of (crime_rankings st) category)
  else unique_crime_categories_for_output st !! category.
Proof.
  induction l as [|a l IH]; intros st t.
  - cbn [map]. rewrite decide_False by apply not_elem_of_nil. reflexivity.
  - rewrite loop_cons, IH, add_arrest_fst.
    cbn [crime_rankings unique_crime_categories_for_output map].
    destruct (decide (category ∈ map category_of l)) as [Hin|Hnin].
    + rewrite decide_True by (apply elem_of_cons; by right). reflexivity.
    + destruct (decide (category_of a = category)) as [<-|Hne].
      * rewrite decide_True by (apply elem_of_cons; by left).
        rewrite lookup_insert_eq. unfold offense_points_of.
        by destruct (crime_rankings st !! category_of a).
      * rewrite decide_False
          by (intros [?|?]%elem_of_cons; [congruence | contradiction]).
        by rewrite lookup_insert_ne.
Qed.

Lemma loop_raw team_abbr name l : forall st t,
  raw_bad_boy_data (fst (loop team_abbr st t l)) !! name =
  match last_arrest_of name l with
  | Some b => Some b
  | None => raw_bad_boy_data st !! name
  end.
Proof.
  induction l as [|a l IH]; intros st t; [reflexivity|].
  rewrite loop_cons, IH, last_arrest_of_cons, add_arrest_fst.
  cbn [raw_bad_boy_data].
  destruct (last_arrest_of name l); [reflexivity|].
  destruct (decide (a_name a = name)) as [<-|Hne].
  - by rewrite lookup_insert_eq.
  - by rewrite lookup_insert_ne.
Qed.

Lemma loop_players team_abbr name l : forall st t,
  players (snd (loop team_abbr st t l)) !! name =
  match last_arrest_of name (defensive l) with
  | Some b => Some (single_offense_entry (crime_rankings st) team_abbr b)
  | None => players t !! name
  end.
Proof.
  induction l as [|a l IH]; intros st t; [reflexivity|].
  rewrite loop_cons, IH, defensive_cons, add_arrest_fst. cbn [crime_rankings].
  destruct (decide (a_position_type a = "D")) as [Hd|Hd].
  - rewrite last_arrest_of_cons, add_arrest_snd_defense by done. cbn [players].
    destruct (last_arrest_of name (defensive l)); [reflexivity|].
    destruct (decide (a_name a = name)) as [<-|Hne].
    + by rewrite lookup_insert_eq.
    + by rewrite lookup_insert_ne.
  - by rewrite add_arrest_snd_other.
Qed.

Lemma loop_frame team_abbr l : forall st t,
  let st' := fst (loop team_abbr st t l) in
  save_data st' = save_data st /\ offline st' = offline st /\ refresh st' = refresh st
  /\ crime_rankings st' = crime_rankings st
  /\ raw_bad_boy_data_file_path st' = raw_bad_boy_data_file_path st
  /\ bad_boy_data_file_path st' = bad_boy_data_file_path st.
Proof.
  induction l as [|a l IH]; intros st t; [by repeat split|].
  cbv zeta. rewrite loop_cons.
  destruct (IH (fst (add_arrest team_abbr (st, t) a))
               (snd (add_arrest team_abbr (st, t) a))) as (H1 & H2 & H3 & H4 & H5 & H6).
  rewrite H1, H2, H3, H4, H5, H6, add_arrest_fst. by repeat split.
Qed.

Lemma last_arrest_of_None name l :
  name ∉ map a_name l -> last_arrest_of name l = None.
Proof.
  intros Hnin. destruct (last_arrest_of name l) as [b|] eqn:E; [|reflexivity].
  exfalso. apply Hnin. unfold last_arrest_of in E.
  apply last_Some_elem_of, list_elem_of_filter in E as [<- Hb].
  apply list_elem_of_In, in_map, list_elem_of_In. exact Hb.
Qed.

End MoreAggregatorFacts.

Lemma max_Z_nonneg (l : list Z) : 0 <= max_Z l.
Proof. unfold max_Z. induction l as [|x l IH]; cbn [foldr]; lia. Qed.

Lemma foldr_max_le (w : Z) (l : list Z) :
  Forall (fun x => x <= w) l -> foldr Z.max w l = w.
Proof. induction 1 as [|x l Hx _ IH]; cbn [foldr]; lia. Qed.

(** The team's worst offense after the loop, with who set it: either no
    defensive arrest scores above the points the team started with, or the
    first defensive arrest that scores the highest value did. *)
Lemma loop_team_worst_first `{so : SetOrder} team_abbr l : forall st t,
  (t_worst_offense (snd (loop team_abbr st t l)) = t_worst_offense t
   /\ t_worst_offense_points (snd (loop team_abbr st t l)) = t_worst_offense_points t
   /\ Forall (fun x => points_of (crime_rankings st) x <= t_worst_offense_points t)
             (defensive l))
  \/ (exists l1 b l2,
        defensive l = l1 ++ b :: l2
        /\ t_worst_offense (snd (loop team_abbr st t l)) = Some (category_of b)
        /\ t_worst_offense_points (snd (loop team_abbr st t l))
           = points_of (crime_rankings st) b
        /\ t_worst_offense_points t < points_of (crime_rankings st) b
        /\ Forall (fun x => points_of (crime_rankings st) x
                            < points_of (crime_rankings st) b) l1
        /\ Forall (fun x => points_of (crime_rankings st) x
                            <= points_of (crime_rankings st) b) l2).
Proof.
  induction l as [|a l IH]; intros st t.
  { left. repeat split. constructor. }
  rewrite loop_cons, defensive_cons.
  set (st1 := fst (add_arrest team_abbr (st, t) a)).
  set (t1 := snd (add_arrest team_abbr (st, t) a)).
  assert (Hcr : crime_rankings st1 = crime_rankings st)
    by (unfold st1; by rewrite add_arrest_fst).
  specialize (IH st1 t1). rewrite Hcr in IH.
  destruct (decide (a_position_type a = "D")) as [Hd|Hd].
  - assert (Ht1 : t_worst_offense t1
                  = (if t_worst_offense_points t <? points_of (crime_rankings st) a
                     then Some (category_of a) else t_worst_offense t)
                  /\ t_worst_offense_points t1
                     = (if t_worst_offense_points t <? points_of (crime_rankings st) a
                        then points_of (crime_rankings st) a
                        else t_worst_offense_points t)).
    { unfold t1. rewrite add_arrest_snd_defense by done. by split. }
    destruct Ht1 as [Hw1 Hp1].
    destruct (Z.ltb_spec (t_worst_offense_points t) (points_of (crime_rankings st) a))
      as [Hlt|Hge].
    + destruct IH as [(Hw & Hp & Hall)|(l1 & b & l2 & Hl & Hw & Hp & Hlt' & Hl1 & Hl2)].
      * right. exists [], a, (defensive l). rewrite Hw, Hp, Hw1, Hp1.
        repeat split; try done. by rewrite Hp1 in Hall.
      * right. exists (a :: l1), b, l2. rewrite Hl, Hw, Hp. rewrite Hp1 in Hlt'.
        repeat split; try done; [lia|]. constructor; [lia | done].
    + destruct IH as [(Hw & Hp & Hall)|(l1 & b & l2 & Hl & Hw & Hp & Hlt' & Hl1 & Hl2)].
      * left. rewrite Hw, Hp, Hw1, Hp1. repeat split.
        rewrite Hp1 in Hall. by constructor.
      * right. exists (a :: l1), b, l2. rewrite Hl, Hw, Hp. rewrite Hp1 in Hlt'.
        repeat split; try done. constructor; [lia | done].
  - assert (Ht1 : t1 = t) by (unfold t1; by rewrite add_arrest_snd_other).
    clearbody t1. subst t1. exact IH.
Qed.

(** X6. The export table after [add_entry] holds every crime category of
    the arrests of the call with the score the scoring table gives it, 0 for
    a category the scoring table does not have, and is unchanged on every
    other category. *)
Theorem export_table_records_every_category `{so : SetOrder}
    (team_abbr : string) (a : ArrestRecord) (l : list ArrestRecord) (st : BadBoyStats) :
  let st' := add_entry team_abbr (Some (a :: l)) st in
  (forall b, b ∈ a :: l ->
     unique_crime_categories_for_output st' !! category_of b
     = Some (points_of (crime_rankings st) b))
  /\ (forall b, b ∈ a :: l -> crime_rankings st !! category_of b = None ->
        unique_crime_categories_for_output st' !! category_of b = Some 0)
  /\ (forall category, category ∉ map category_of (a :: l) ->
        unique_crime_categories_for_output st' !! category
        = unique_crime_categories_for_output st !! category).
Proof.
  cbv zeta. rewrite add_entry_cons. cbn [set_bad_boy_data unique_crime_categories_for_output].
  assert (Hin : forall b, b ∈ a :: l ->
            unique_crime_categories_for_output (fst (loop team_abbr st new_team (a :: l)))
              !! category_of b = Some (points_of (crime_rankings st) b)).
  { intros b Hb. rewrite loop_unique. rewrite decide_True; [reflexivity|].
    apply list_elem_of_In, in_map, list_elem_of_In. exact Hb. }
  split; [exact Hin|]. split.
  - intros b Hb Hnone. rewrite (Hin b Hb). unfold points_of, offense_points_of.
    by rewrite Hnone.
  - intros category Hnin. rewrite loop_unique. by rewrite decide_False.
Qed.

(** X7. The raw data after [add_entry] holds, under each name of the call,
    the last arrest record bearing that name, and is unchanged under every
    other name. *)
Theorem raw_data_keeps_last_arrest `{so : SetOrder}
    (team_abbr : string) (a : ArrestRecord) (l : list ArrestRecord) (st : BadBoyStats) :
  let st' := add_entry team_abbr (Some (a :: l)) st in
  (forall name, name ∈ map a_name (a :: l) ->
     exists b, last_arrest_of name (a :: l) = Some b /\ a_name b = name
               /\ raw_bad_boy_data st' !! name = Some b)
  /\ (forall name, name ∉ map a_name (a :: l) ->
        raw_bad_boy_data st' !! name = raw_bad_boy_data st !! name).
Proof.
  cbv zeta. rewrite add_entry_cons. cbn [set_bad_boy_data raw_bad_boy_data]. split.
  - intros name Hin.
    destruct (last_arrest_of_Some name (a :: l) Hin) as (b & Hlast & Hname & _).
    exists b. rewrite loop_raw, Hlast. by repeat split.
  - intros name Hnin. rewrite loop_raw. by rewrite (last_arrest_of_None name _ Hnin).
Qed.

(** X8. [add_entry] changes the store only under the team's key and under
    the names of its arrests: every other entry stays, the keys afterwards
    are the old keys, the team and those names, and the flags, the scoring
    table and the file paths are untouched. *)
Theorem add_entry_touches_only_its_names `{so : SetOrder}
    (team_abbr : string) (a : ArrestRecord) (l : list ArrestRecord) (st : BadBoyStats) :
  let st' := add_entry team_abbr (Some (a :: l)) st in
  (forall name, name ∉ map a_name (a :: l) -> name <> team_abbr ->
     bad_boy_data st' !! name = bad_boy_data st !! name)
  /\ dom (bad_boy_data st')
     = {[team_abbr]} ∪ (dom (bad_boy_data st) ∪ list_to_set (map a_name (a :: l)))
  /\ crime_rankings st' = crime_rankings st
  /\ save_data st' = save_data st /\ offline st' = offline st /\ refresh st' = refresh st
  /\ bad_boy_data_file_path st' = bad_boy_data_file_path st
  /\ raw_bad_boy_data_file_path st' = raw_bad_boy_data_file_path st.
Proof.
  cbv zeta. split.
  - intros name Hnin Hne. rewrite add_entry_player by done.
    by rewrite (last_arrest_of_None name _ Hnin).
  - rewrite add_entry_cons.
    cbn [set_bad_boy_data bad_boy_data crime_rankings save_data offline refresh
         bad_boy_data_file_path raw_bad_boy_data_file_path].
    destruct (loop_frame team_abbr (a :: l) st new_team) as (H1 & H2 & H3 & H4 & H5 & H6).
    split; [by rewrite dom_insert_L, loop_dom|]. by repeat split.
Qed.

(** X9. In the team entry stored by [add_entry], [players] holds, under
    each name, the one-offense entry of the last defensive arrest bearing
    it; its keys are exactly the names listed in [offenders], and
    [num_offenders] is their number. *)
Theorem team_players_are_its_offenders `{so : SetOrder}
    (team_abbr : string) (a : ArrestRecord) (l : list ArrestRecord) (st : BadBoyStats) :
  exists t,
    bad_boy_data (add_entry team_abbr (Some (a :: l)) st) !! team_abbr = Some (Team t)
    /\ (forall name,
          players t !! name
          = single_offense_entry (crime_rankings st) team_abbr
              <$> last_arrest_of name (defensive (a :: l)))
    /\ (forall name, name ∈ offenders t <-> is_Some (players t !! name))
    /\ num_offenders t = Z.of_nat (size (players t)).
Proof.
  eexists. split; [apply add_entry_team|].
  set (t := snd (loop team_abbr st new_team (a :: l))).
  assert (Hpl : forall name,
            players t !! name
            = single_offense_entry (crime_rankings st) team_abbr
                <$> last_arrest_of name (defensive (a :: l))).
  { intros name. unfold t. rewrite loop_players.
    destruct (last_arrest_of name (defensive (a :: l))); [reflexivity|].
    cbn [players new_team]. apply lookup_empty. }
  assert (Hoff : forall name, name ∈ offenders t <-> is_Some (players t !! name)).
  { intros name. unfold t at 1. rewrite loop_offenders, Hpl.
    cbn [offenders new_team]. rewrite elem_of_nil, fmap_is_Some. split.
    - intros [[]|Hin].
      destruct (last_arrest_of_Some name _ Hin) as (b & -> & _). by eexists.
    - intros Hsome. right.
      destruct (decide (name ∈ map a_name (defensive (a :: l)))) as [|Hnin]; [done|].
      rewrite (last_arrest_of_None name _ Hnin) in Hsome. by destruct Hsome. }
  split; [exact Hpl|]. split; [exact Hoff|].
  destruct (loop_offenders_counted team_abbr (a :: l) st new_team new_team_counted)
    as [Hnd Hnum].
  fold t in Hnd, Hnum. rewrite Hnum. f_equal.
  rewrite <- (size_list_to_set (C := gset string) (offenders t)) by exact Hnd.
  rewrite <- size_dom. f_equal. apply set_eq. intros name.
  rewrite elem_of_list_to_set, elem_of_dom. apply Hoff.
Qed.

(** X10. The team's [worst_offense_points] is the highest score among its
    defensive arrests, or 0 when none scores above 0, and then
    [worst_offense] stays [None]; otherwise [worst_offense] is the category
    of the first defensive arrest, in the order processed, that scores that
    highest value. *)
Theorem team_worst_offense_is_first_highest `{so : SetOrder}
    (team_abbr : string) (a : ArrestRecord) (l : list ArrestRecord) (st : BadBoyStats) :
  exists t,
    bad_boy_data (add_entry team_abbr (Some (a :: l)) st) !! team_abbr = Some (Team t)
    /\ t_worst_offense_points t
       = max_Z (map (points_of (crime_rankings st)) (defensive (a :: l)))
    /\ ((t_worst_offense t = None /\ t_worst_offense_points t = 0
         /\ Forall (fun x => points_of (crime_rankings st) x <= 0) (defensive (a :: l)))
        \/ (exists l1 b l2,
              defensive (a :: l) = l1 ++ b :: l2
              /\ t_worst_offense t = Some (category_of b)
              /\ t_worst_offense_points t = points_of (crime_rankings st) b
              /\ 0 < points_of (crime_rankings st) b
              /\ Forall (fun x => points_of (crime_rankings st) x
                                  < points_of (crime_rankings st) b) l1
              /\ Forall (fun x => points_of (crime_rankings st) x
                                  <= points_of (crime_rankings st) b) l2)).
Proof.
  eexists. split; [apply add_entry_team|].
  split; [by rewrite loop_team_worst_points|].
  destruct (loop_team_worst_first team_abbr (a :: l) st new_team)
    as [(Hw & Hp & Hall)|(l1 & b & l2 & Hl & Hw & Hp & Hlt & Hl1 & Hl2)].
  - left. by repeat split.
  - right. exists l1, b, l2. by repeat split.
Qed.

Lemma loop_snd_ext `{so : SetOrder} team_abbr l : forall st st' t,
  crime_rankings st = crime_rankings st' ->
  snd (loop team_abbr st t l) = snd (loop team_abbr st' t l).
Proof.
  induction l as [|a l IH]; intros st st' t Hcr; [reflexivity|].
  rewrite !loop_cons.
  assert (Ht : snd (add_arrest team_abbr (st, t) a) = snd (add_arrest team_abbr (st', t) a)).
  { destruct (decide (a_position_type a = "D")) as [Hd|Hd].
    - rewrite !add_arrest_snd_defense by done. by rewrite Hcr.
    - by rewrite !add_arrest_snd_other. }
  rewrite Ht. apply IH. by rewrite !add_arrest_fst.
Qed.

(** X11. A team entry is built from the arrests of one call only: calling
    [add_entry] again for the same team replaces the team entry by that of
    the new arrests, as if the earlier call had not been made. *)
Theorem add_entry_again_replaces_team `{so : SetOrder}
    (team_abbr : string) (a1 : ArrestRecord) (l1 : list ArrestRecord)
    (a2 : ArrestRecord) (l2 : list ArrestRecord) (st : BadBoyStats) :
  bad_boy_data (add_entry team_abbr (Some (a2 :: l2))
                  (add_entry team_abbr (Some (a1 :: l1)) st)) !! team_abbr
  = bad_boy_data (add_entry team_abbr (Some (a2 :: l2)) st) !! team_abbr.
Proof.
  rewrite !add_entry_team. do 2 f_equal. apply loop_snd_ext.
  rewrite add_entry_cons. cbn [set_bad_boy_data crime_rankings].
  by destruct (loop_frame team_abbr (a1 :: l1) st new_team) as (_ & _ & _ & -> & _).
Qed.

(** ** More on the lookup *)

Lemma select_total_points (e : Entry) :
  exists n, select e "total_points" = Ok (VInt n).
Proof. destruct e; eexists; reflexivity. Qed.

Lemma select_worst_offense (e : Entry) :
  select e "worst_offense" = Ok VNone \/ exists s, select e "worst_offense" = Ok (VStr s).
Proof.
  destruct e as [p|t].
  - destruct (worst_offense p) as [s|] eqn:E.
    + right. exists s. unfold select, getitem. cbn. by rewrite E.
    + left. unfold select, getitem. cbn. by rewrite E.
  - destruct (t_worst_offense t) as [s|] eqn:E.
    + right. exists s. unfold select, getitem. cbn. by rewrite E.
    + left. unfold select, getitem. cbn. by rewrite E.
Qed.

(** X12. The two wrappers for points and crime never raise: whatever the
    store holds and whoever is asked for, the points are an integer and the
    crime is a string or [None]. *)
Theorem points_and_crime_never_raise
    (nfl_team_abbreviations : list string)
    (nfl_team_abbreviation_conversions : gmap string string)
    (first last code : option string) (player_pos : string) (st : BadBoyStats) :
  (exists n,
     snd (get_player_bad_boy_points nfl_team_abbreviations
            nfl_team_abbreviation_conversions first last code player_pos st)
     = Ok (VInt n))
  /\ (snd (get_player_bad_boy_crime nfl_team_abbreviations
             nfl_team_abbreviation_conversions first last code player_pos st)
      = Ok VNone
      \/ exists s,
           snd (get_player_bad_boy_crime nfl_team_abbreviations
                  nfl_team_abbreviation_conversions first last code player_pos st)
           = Ok (VStr s)).
Proof.
  unfold get_player_bad_boy_points, get_player_bad_boy_crime, get_player_bad_boy_stats.
  destruct (find_or_create _ _ first last code player_pos st) as [st' e].
  cbn [snd]. split; [apply select_total_points | apply select_worst_offense].
Qed.

(** X13. A player recorded by [add_entry] is found by a lookup whose name
    capitalises to the recorded name: the lookup leaves the object as it is
    and returns the points of the player's last arrest, and as crime its
    category when it scores above 0, [None] otherwise. *)
Theorem recorded_player_is_looked_up `{so : SetOrder}
    (nfl_team_abbreviations : list string)
    (nfl_team_abbreviation_conversions : gmap string string)
    (team_abbr : string) (a : ArrestRecord) (l : list ArrestRecord) (st : BadBoyStats)
    (first last code : option string) (player_pos : string) :
  let name := player_full_name_of first last player_pos in
  let st' := add_entry team_abbr (Some (a :: l)) st in
  name ∈ map a_name (a :: l) -> name <> team_abbr ->
  exists b,
    last_arrest_of name (a :: l) = Some b
    /\ get_player_bad_boy_points nfl_team_abbreviations
         nfl_team_abbreviation_conversions first last code player_pos st'
       = (st', Ok (VInt (points_of (crime_rankings st) b)))
    /\ get_player_bad_boy_crime nfl_team_abbreviations
         nfl_team_abbreviation_conversions first last code player_pos st'
       = (st', Ok (if 0 <? points_of (crime_rankings st) b
                   then VStr (category_of b) else VNone)).
Proof.
  intros name st' Hin Hne.
  destruct (last_arrest_of_Some name (a :: l) Hin) as (b & Hlast & _).
  exists b. split; [exact Hlast|].
  assert (Hhit : bad_boy_data st' !! player_full_name_of first last player_pos
                 = Some (Player (single_offense_entry (crime_rankings st) team_abbr b))).
  { unfold st'. rewrite add_entry_player by exact Hne. fold name. by rewrite Hlast. }
  unfold get_player_bad_boy_points, get_player_bad_boy_crime, get_player_bad_boy_stats.
  rewrite (find_or_create_hit _ _ _ _ _ _ _ _ Hhit). split; [reflexivity|].
  f_equal. unfold select, getitem, single_offense_entry. cbn.
  by destruct (0 <? points_of (crime_rankings st) b).
Qed.

Lemma entry_key_player_unknown (p : PlayerEntry) (key : string) :
  key ∉ ["team"; "pos"; "offenses"; "total_points"; "worst_offense"; "worst_offense_points"] ->
  entry_key (Player p) key = None.
Proof.
  intros Hnin. unfold entry_key.
  repeat (destruct (decide _) as [->|_];
          [exfalso; apply Hnin; rewrite !elem_of_cons;
           repeat ((left; reflexivity) || right) |]).
  reflexivity.
Qed.

(** X14. A lookup that misses the store and asks for a key the default entry
    does not have raises [KeyError] for that key, but only after storing the
    default entry: the store has grown although the call failed. *)
Theorem unknown_key_raises_after_storing
    (nfl_team_abbreviations : list string)
    (nfl_team_abbreviation_conversions : gmap string string)
    (first last code : option string) (player_pos key_str : string) (st : BadBoyStats) :
  let get := get_player_bad_boy_stats nfl_team_abbreviations
               nfl_team_abbreviation_conversions first last code player_pos key_str in
  let key := player_full_name_of first last player_pos in
  bad_boy_data st !! key = None ->
  key_str <> "" ->
  key_str ∉ ["team"; "pos"; "offenses"; "total_points"; "worst_offense";
             "worst_offense_points"] ->
  snd (get st) = Raise (KeyError key_str)
  /\ bad_boy_data (fst (get st)) !! key
     = Some (Player (mkPlayer (player_team_of nfl_team_abbreviations
                                 nfl_team_abbreviation_conversions code)
                              player_pos [] 0 None 0)).
Proof.
  intros get key Hmiss Hne Hnin. unfold get, get_player_bad_boy_stats.
  rewrite (find_or_create_miss _ _ _ _ _ _ _ Hmiss). cbn [fst snd]. split.
  - unfold select. rewrite decide_False by exact Hne.
    unfold getitem. by rewrite entry_key_player_unknown.
  - cbn [set_bad_boy_data bad_boy_data]. apply lookup_insert_eq.
Qed.

(** X15. All lookups for position D/ST use one key. While that key is not in
    the store such a lookup reports 0 points, whatever the store holds for
    the team; the entry it stores records the team of that first lookup, and
    every later D/ST lookup, for any team and any names, returns that same
    entry and stores nothing. *)
Theorem defense_lookups_share_one_entry
    (nfl_team_abbreviations : list string)
    (nfl_team_abbreviation_conversions : gmap string string)
    (first1 last1 code1 first2 last2 code2 : option string) (st : BadBoyStats) :
  let get := get_player_bad_boy_stats nfl_team_abbreviations
               nfl_team_abbreviation_conversions in
  let shared := Player (mkPlayer (player_team_of nfl_team_abbreviations
                                    nfl_team_abbreviation_conversions code1)
                                 "D/ST" [] 0 None 0) in
  bad_boy_data st !! disabled_defense_key = None ->
  get first1 last1 code1 "D/ST" "total_points" st
  = (fst (get first1 last1 code1 "D/ST" "" st), Ok (VInt 0))
  /\ snd (get first1 last1 code1 "D/ST" "" st) = Ok (VEntry shared)
  /\ get first2 last2 code2 "D/ST" "" (fst (get first1 last1 code1 "D/ST" "" st))
     = (fst (get first1 last1 code1 "D/ST" "" st), Ok (VEntry shared)).
Proof.
  intros get shared Hmiss. unfold get, get_player_bad_boy_stats.
  rewrite !(find_or_create_miss _ _ first1 last1 code1 "D/ST" st Hmiss).
  cbn [fst snd]. split; [reflexivity|]. split; [reflexivity|].
  rewrite (find_or_create_hit _ _ first2 last2 code2 "D/ST" _ shared); [reflexivity|].
  cbn [set_bad_boy_data bad_boy_data]. apply lookup_insert_eq.
Qed.



(** ** More on the run modes *)

Section InitFacts.

Context {so : SetOrder}.
Variable nfl_team_abbreviations : list string.
Variable web : Web.

Lemma add_entry_frame team_abbr arrests st :
  let st' := add_entry team_abbr arrests st in
  save_data st' = save_data st
  /\ crime_rankings st' = crime_rankings st
  /\ raw_bad_boy_data_file_path st' = raw_bad_boy_data_file_path st
  /\ bad_boy_data_file_path st' = bad_boy_data_file_path st.
Proof.
  destruct arrests as [[|a l]|]; [by repeat split | | by repeat split].
  cbv zeta. rewrite add_entry_cons.
  cbn [set_bad_boy_data save_data crime_rankings raw_bad_boy_data_file_path
       bad_boy_data_file_path].
  destruct (loop_frame team_abbr (a :: l) st new_team) as (H1 & _ & _ & H4 & H5 & H6).
  by repeat split.
Qed.

Lemma add_teams_cons arrests t teams self :
  add_teams arrests (t :: teams) self
  = add_teams arrests teams (add_entry t (arrests_by_team_get arrests t) self).
Proof. reflexivity. Qed.

Lemma add_teams_frame arrests teams : forall self,
  let self' := add_teams arrests teams self in
  save_data self' = save_data self
  /\ crime_rankings self' = crime_rankings self
  /\ raw_bad_boy_data_file_path self' = raw_bad_boy_data_file_path self
  /\ bad_boy_data_file_path self' = bad_boy_data_file_path self.
Proof.
  induction teams as [|t teams IH]; intros self; [by repeat split|].
  cbv zeta. rewrite add_teams_cons.
  destruct (IH (add_entry t (arrests_by_team_get arrests t) self)) as (H1 & H2 & H3 & H4).
  destruct (add_entry_frame t (arrests_by_team_get arrests t) self) as (G1 & G2 & G3 & G4).
  rewrite H1, H2, H3, H4. by repeat split.
Qed.

(** [__init__] when it goes to the web. *)
Lemma init_fetching data_dir save offline' refresh' w rankings :
  crime_categories_resource w = Ok rankings ->
  goes_to_web data_dir offline' refresh' w ->
  init nfl_team_abbreviations web data_dir save offline' refresh' w =
  match fetch_all_arrests nfl_team_abbreviations web (requests w) with
  | (log, Raise e) => (mkWorld (files w) (crime_categories_resource w) log, Raise e)
  | (log, Ok arrests) =>
      let self := add_teams arrests nfl_team_abbreviations
                    (initial_stats data_dir save offline' refresh' rankings) in
      (mkWorld (save_bad_boy_data self (files w)) (crime_categories_resource w) log,
       Ok self)
  end.
Proof.
  intros Hres Hweb. unfold init. rewrite Hres.
  destruct Hweb as [-> | [-> Hsnap]].
  - cbn [negb orb bad_boy_data]. reflexivity.
  - destruct refresh'; [reflexivity|].
    cbn [negb orb]. unfold open_bad_boy_data. cbn [bad_boy_data_file_path].
    destruct Hsnap as [-> | ->]; reflexivity.
Qed.

(** [__init__] when it finds a snapshot that is not empty and is not asked
    to refresh. *)
Lemma init_cached data_dir save offline' w rankings d :
  crime_categories_resource w = Ok rankings ->
  store_files (files w) !! (data_dir +:+ "/bad_boy_data.json") = Some d ->
  d <> ∅ ->
  init nfl_team_abbreviations web data_dir save offline' false w =
  (w, Ok (set_bad_boy_data d (initial_stats data_dir save offline' false rankings))).
Proof.
  intros Hres Hd Hne. unfold init. rewrite Hres.
  cbn [negb]. unfold open_bad_boy_data. cbn [bad_boy_data_file_path]. rewrite Hd.
  cbn [set_bad_boy_data bad_boy_data].
  rewrite (proj2 (is_empty_dict_false d)) by exact Hne.
  by destruct offline'.
Qed.

End InitFacts.

Lemma add_entry_group_dom `{so : SetOrder} arrests t self k :
  k ∈ dom (bad_boy_data (add_entry t (arrests_by_team_get arrests t) self))
  <-> k ∈ dom (bad_boy_data self)
      \/ exists b, b ∈ arrests /\ a_team b = t /\ (k = a_name b \/ k = t).
Proof.
  unfold arrests_by_team_get.
  destruct (filter (fun a => a_team a = t) arrests) as [|b0 g] eqn:E.
  - cbn [add_entry]. split; [by left|].
    intros [H|(b & Hb & Hteam & _)]; [exact H|].
    assert (Hin : b ∈ filter (fun a => a_team a = t) arrests)
      by (by apply list_elem_of_filter).
    rewrite E in Hin. by apply elem_of_nil in Hin.
  - rewrite add_entry_cons. cbn [set_bad_boy_data bad_boy_data].
    rewrite dom_insert_L, loop_dom, <- E.
    rewrite !elem_of_union, elem_of_singleton, elem_of_list_to_set.
    assert (Hnames : k ∈ map a_name (filter (fun a => a_team a = t) arrests)
                     <-> exists b, b ∈ arrests /\ a_team b = t /\ k = a_name b).
    { rewrite list_elem_of_In, in_map_iff. split.
      - intros (b & <- & Hb). apply list_elem_of_In, list_elem_of_filter in Hb as [? ?].
        by exists b.
      - intros (b & Hb & Hteam & ->). exists b. split; [reflexivity|].
        apply list_elem_of_In, list_elem_of_filter. by split. }
    assert (Hb0 : b0 ∈ arrests /\ a_team b0 = t).
    { assert (Hin : b0 ∈ filter (fun a => a_team a = t) arrests)
        by (rewrite E; apply elem_of_cons; by left).
      apply list_elem_of_filter in Hin. tauto. }
    rewrite Hnames. split.
    + intros [->|[H|(b & Hb & Hteam & ->)]].
      * right. exists b0. destruct Hb0. repeat split; try done. by right.
      * by left.
      * right. exists b. repeat split; try done. by left.
    + intros [H|(b & Hb & Hteam & [->| ->])].
      * right. by left.
      * right. right. by exists b.
      * by left.
Qed.

Lemma add_teams_dom `{so : SetOrder} arrests teams : forall self k,
  k ∈ dom (bad_boy_data (add_teams arrests teams self))
  <-> k ∈ dom (bad_boy_data self)
      \/ exists b, b ∈ arrests /\ a_team b ∈ teams /\ (k = a_name b \/ k = a_team b).
Proof.
  induction teams as [|t teams IH]; intros self k.
  - cbn. split; [by left|]. intros [H|(b & _ & Hin & _)]; [exact H|].
    by apply elem_of_nil in Hin.
  - rewrite add_teams_cons, IH, add_entry_group_dom. split.
    + intros [[H|(b & Hb & Hteam & Hk)]|(b & Hb & Hteam & Hk)].
      * by left.
      * right. exists b. split; [done|]. split; [apply elem_of_cons; by left|].
        rewrite Hteam. exact Hk.
      * right. exists b. split; [done|]. split; [apply elem_of_cons; by right | done].
    + intros [H|(b & Hb & Hteam & Hk)]; [left; by left|].
      apply elem_of_cons in Hteam as [Hteam|Hteam].
      * left. right. exists b. rewrite <- Hteam. by repeat split.
      * right. by exists b.
Qed.

Lemma add_teams_no_arrests `{so : SetOrder} teams : forall self,
  add_teams [] teams self = self.
Proof.
  induction teams as [|t teams IH]; intros self; [reflexivity|].
  rewrite add_teams_cons. cbn [arrests_by_team_get filter add_entry]. apply IH.
Qed.

(** X17. When the fetch raises, [__init__] raises the same exception after
    the requests made so far; it writes no file, and the arrests already
    fetched are dropped. *)
Theorem failed_fetch_aborts_init `{so : SetOrder}
    (nfl_team_abbreviations : list string) (web : Web)
    (data_dir : string) (save offline' refresh' : bool) (w : World)
    (rankings : gmap string Z) (log : list request) (e : exn) :
  crime_categories_resource w = Ok rankings ->
  goes_to_web data_dir offline' refresh' w ->
  fetch_all_arrests nfl_team_abbreviations web (requests w) = (log, Raise e) ->
  init nfl_team_abbreviations web data_dir save offline' refresh' w
  = (mkWorld (files w) (crime_categories_resource w) log, Raise e).
Proof.
  intros Hres Hweb Hfetch.
  rewrite (init_fetching _ _ _ _ _ _ _ _ Hres Hweb). by rewrite Hfetch.
Qed.

(** X18. A run that is not offline and not a refresh, and finds a snapshot
    that is not empty, uses it as its store: it sends no request and writes
    no file, whatever the web would answer. *)
Theorem online_run_reuses_snapshot `{so : SetOrder}
    (nfl_team_abbreviations : list string) (web : Web)
    (data_dir : string) (save : bool) (w : World)
    (rankings : gmap string Z) (d : gmap string Entry) :
  crime_categories_resource w = Ok rankings ->
  store_files (files w) !! (data_dir +:+ "/bad_boy_data.json") = Some d ->
  d <> ∅ ->
  exists self,
    init nfl_team_abbreviations web data_dir save false false w = (w, Ok self)
    /\ bad_boy_data self = d
    /\ raw_bad_boy_data self = ∅
    /\ unique_crime_categories_for_output self = ∅.
Proof.
  intros Hres Hd Hne. eexists. split; [by apply init_cached|].
  repeat split; reflexivity.
Qed.

(** X19. A refresh does not read the snapshot: the object returned, or the
    exception raised, and the requests sent are the same whatever files
    there are. *)
Theorem refresh_ignores_snapshot `{so : SetOrder}
    (nfl_team_abbreviations : list string) (web : Web)
    (data_dir : string) (save offline' : bool) (w : World) (other_files : FileSystem) :
  let w' := mkWorld other_files (crime_categories_resource w) (requests w) in
  snd (init nfl_team_abbreviations web data_dir save offline' true w)
  = snd (init nfl_team_abbreviations web data_dir save offline' true w')
  /\ requests (fst (init nfl_team_abbreviations web data_dir save offline' true w))
     = requests (fst (init nfl_team_abbreviations web data_dir save offline' true w')).
Proof.
  cbv zeta. unfold init. cbn [crime_categories_resource requests].
  destruct (crime_categories_resource w) as [rankings|e]; [|by split].
  cbn [negb orb bad_boy_data].
  change (is_empty_dict (∅ : gmap string Entry)) with true. cbn iota.
  destruct (fetch_all_arrests nfl_team_abbreviations web (requests w)) as [log [arrests|e]];
    by split.
Qed.

(** X20. A fetch that succeeds with no arrest at all is not an error:
    [__init__] returns an object with an empty store. *)
Theorem no_arrests_gives_empty_store `{so : SetOrder}
    (nfl_team_abbreviations : list string) (web : Web)
    (data_dir : string) (save offline' refresh' : bool) (w : World)
    (rankings : gmap string Z) (log : list request) :
  crime_categories_resource w = Ok rankings ->
  goes_to_web data_dir offline' refresh' w ->
  fetch_all_arrests nfl_team_abbreviations web (requests w) = (log, Ok []) ->
  exists self,
    snd (init nfl_team_abbreviations web data_dir save offline' refresh' w) = Ok self
    /\ bad_boy_data self = ∅
    /\ requests (fst (init nfl_team_abbreviations web data_dir save offline' refresh' w))
       = log.
Proof.
  intros Hres Hweb Hfetch.
  rewrite (init_fetching _ _ _ _ _ _ _ _ Hres Hweb), Hfetch. cbv zeta.
  rewrite add_teams_no_arrests. eexists. by repeat split.
Qed.

(** X21. After a fetch, the keys of the store are the names of the arrests
    whose team is one of the abbreviations, and the teams that have such an
    arrest; an arrest for any other team code leaves no trace. *)
Theorem fetched_store_keys `{so : SetOrder}
    (nfl_team_abbreviations : list string) (web : Web)
    (data_dir : string) (save offline' refresh' : bool) (w : World)
    (rankings : gmap string Z) (log : list request) (arrests : list ArrestRecord) :
  crime_categories_resource w = Ok rankings ->
  goes_to_web data_dir offline' refresh' w ->
  fetch_all_arrests nfl_team_abbreviations web (requests w) = (log, Ok arrests) ->
  exists self,
    snd (init nfl_team_abbreviations web data_dir save offline' refresh' w) = Ok self
    /\ forall k,
         k ∈ dom (bad_boy_data self)
         <-> exists b, b ∈ arrests /\ a_team b ∈ nfl_team_abbreviations
                       /\ (k = a_name b \/ k = a_team b).
Proof.
  intros Hres Hweb Hfetch.
  rewrite (init_fetching _ _ _ _ _ _ _ _ Hres Hweb), Hfetch. cbv zeta.
  eexists. split; [reflexivity|]. intros k. cbn [snd].
  rewrite add_teams_dom. cbn [initial_stats bad_boy_data]. rewrite dom_empty_L.
  split; [intros [H|H]; [by apply not_elem_of_empty in H | exact H] | by right].
Qed.

(** What a successful [__init__] leaves behind: the world is the one it
    started in, and then the snapshot file holds the store returned; or the
    arrests were fetched, and the files are those of [save_bad_boy_data]. *)
Lemma init_success_cases `{so : SetOrder}
    (nfl_team_abbreviations : list string) (web : Web)
    (data_dir : string) (save offline' refresh' : bool) (w w1 : World)
    (self : BadBoyStats) :
  init nfl_team_abbreviations web data_dir save offline' refresh' w = (w1, Ok self) ->
  exists rankings,
    crime_categories_resource w = Ok rankings
    /\ crime_categories_resource w1 = Ok rankings
    /\ save_data self = save
    /\ bad_boy_data_file_path self = data_dir +:+ "/bad_boy_data.json"
    /\ crime_rankings self = rankings
    /\ ((w1 = w
         /\ store_files (files w) !! (data_dir +:+ "/bad_boy_data.json")
            = Some (bad_boy_data self))
        \/ files w1 = save_bad_boy_data self (files w)).
Proof.
  unfold init. destruct (crime_categories_resource w) as [rankings|e] eqn:Hres; [|done].
  intros Hrun. exists rankings. split; [reflexivity|].
  set (self0 := mkStats save offline' refresh' rankings ∅ ∅
                  (data_dir +:+ "/bad_boy_raw_data.json") ∅
                  (data_dir +:+ "/bad_boy_data.json")) in *.
  set (self1 := if negb refresh' then open_bad_boy_data (files w) self0 else self0) in *.
  assert (Hframe1 : save_data self1 = save
                    /\ bad_boy_data_file_path self1 = data_dir +:+ "/bad_boy_data.json"
                    /\ crime_rankings self1 = rankings).
  { unfold self1, open_bad_boy_data.
    destruct (negb refresh'); [|done].
    by destruct (store_files (files w) !! bad_boy_data_file_path self0). }
  assert (Hstore1 : is_empty_dict (bad_boy_data self1) = false ->
                    store_files (files w) !! (data_dir +:+ "/bad_boy_data.json")
                    = Some (bad_boy_data self1)).
  { unfold self1, open_bad_boy_data. cbn [bad_boy_data_file_path self0].
    destruct (negb refresh'); [|done].
    destruct (store_files (files w) !! (data_dir +:+ "/bad_boy_data.json")); done. }
  destruct (is_empty_dict (bad_boy_data self1)) eqn:Hempty.
  - destruct (refresh' || negb offline'); [|done].
    destruct (fetch_all_arrests nfl_team_abbreviations web (requests w))
      as [log [arrests|e]]; [|done].
    injection Hrun as <- <-. cbn [crime_categories_resource files].
    change (foldl _ self1 nfl_team_abbreviations)
      with (add_teams arrests nfl_team_abbreviations self1).
    destruct (add_teams_frame arrests nfl_team_abbreviations self1) as (H1 & H2 & _ & H4).
    destruct Hframe1 as (G1 & G2 & G3).
    split; [first [exact Hres | reflexivity]|].
    split; [congruence|]. split; [congruence|]. split; [congruence|]. by right.
  - assert (Hsame : (w, Ok self1) = (w1, Ok self))
      by (by destruct (refresh' || negb offline')).
    injection Hsame as <- <-. destruct Hframe1 as (G1 & G2 & G3).
    split; [first [exact Hres | reflexivity]|].
    split; [exact G1|]. split; [exact G2|]. split; [exact G3|].
    left. split; [reflexivity | by apply Hstore1].
Qed.

(** X22. A run without [save_data] writes no file, in any mode and whatever
    happens. *)
Theorem run_without_save_writes_nothing `{so : SetOrder}
    (nfl_team_abbreviations : list string) (web : Web)
    (data_dir : string) (offline' refresh' : bool) (w : World) :
  files (fst (init nfl_team_abbreviations web data_dir false offline' refresh' w))
  = files w.
Proof.
  destruct (init nfl_team_abbreviations web data_dir false offline' refresh' w)
    as [w1 [self|e]] eqn:Hrun.
  - destruct (init_success_cases _ _ _ _ _ _ _ _ _ Hrun)
      as (rankings & _ & _ & Hsave & _ & _ & [[-> _]|Hfiles]); [reflexivity|].
    cbn [fst]. rewrite Hfiles. unfold save_bad_boy_data. by rewrite Hsave.
  - cbn [fst]. revert Hrun. unfold init.
    destruct (crime_categories_resource w); [|by intros [= <- _]].
    repeat match goal with
           | |- context [if ?b then _ else _] => destruct b
           | |- context [match fetch_all_arrests ?a ?b ?c with _ => _ end] =>
               destruct (fetch_all_arrests a b c) as [? [?|?]]
           end; intros [= <- ?]; reflexivity.
Qed.

(** X23. A run with [save_data] that succeeds with a store that is not empty
    can be repeated offline: started in the world it leaves, with the same
    data directory, an offline run returns the same store without sending
    a request, whatever the mode of the first run was. *)
Theorem saved_run_repeats_offline `{so : SetOrder}
    (nfl_team_abbreviations : list string) (web : Web)
    (data_dir : string) (offline' refresh' : bool) (w w1 : World) (self : BadBoyStats)
    (later_abbreviations : list string) (later_web : Web) (later_save : bool) :
  init nfl_team_abbreviations web data_dir true offline' refresh' w = (w1, Ok self) ->
  bad_boy_data self <> ∅ ->
  exists self',
    init later_abbreviations later_web data_dir later_save true false w1 = (w1, Ok self')
    /\ bad_boy_data self' = bad_boy_data self
    /\ crime_rankings self' = crime_rankings self.
Proof.
  intros Hrun Hne.
  destruct (init_success_cases _ _ _ _ _ _ _ _ _ Hrun)
    as (rankings & Hres & Hres1 & Hsave & Hpath & Hcr & Hfiles).
  assert (Hfile : store_files (files w1) !! (data_dir +:+ "/bad_boy_data.json")
                  = Some (bad_boy_data self)).
  { destruct Hfiles as [[-> Hd]|Hfiles]; [exact Hd|].
    rewrite Hfiles. unfold save_bad_boy_data. rewrite Hsave, Hpath.
    cbn [store_files]. apply lookup_insert_eq. }
  eexists. split; [by apply (init_cached later_abbreviations later_web data_dir
                               later_save true w1 rankings (bad_boy_data self))|].
  split; [reflexivity | by rewrite Hcr].
Qed.

(** ** The further properties at sample inputs *)

Lemma page_with_known_positions_converts_witness :
  exists arrests,
    arrests_of_page sample_page = Ok arrests
    /\ Forall2 (fun arrest a => arrest_of_raw arrest = Ok a) sample_page arrests
    /\ List.length arrests = List.length sample_page
    /\ Forall (fun a =>
                 a_position_type a ∈ ["D"; "O"; "S"; "L"; "C"]
                 /\ a_team a <> "Free agent" /\ a_team a <> "Free Agent"
                 /\ category_of a = a_crime a) arrests.
Proof.
  apply (page_with_known_positions_converts sample_page).
  repeat constructor; eexists; reflexivity.
Defined.

Lemma page_with_unknown_position_raises_witness :
  arrests_of_page (sample_page ++ unknown_position_record :: sample_page)
  = Raise (KeyError "LS").
Proof.
  apply (page_with_unknown_position_raises sample_page unknown_position_record sample_page).
  - repeat constructor; eexists; reflexivity.
  - reflexivity.
Defined.

Lemma num_pages_is_least_cover_witness :
  2 <= num_pages_of 41
  /\ 41 <= 20 * num_pages_of 41
  /\ (forall n, 41 <= 20 * n -> num_pages_of 41 <= n).
Proof. apply (num_pages_is_least_cover 41). lia. Defined.

Lemma team_pages_are_fetched_in_order_witness :
  1 <= pages_asked (totalResults (sea_pages 1))
  /\ fetch_team sample_web "nonce" "SEA" []
     = ([] ++ map (PostFetchTable "nonce" "SEA")
                  (seqZ 1 (pages_asked (totalResults (sea_pages 1)))),
        Ok (List.concat (map sea_arrests
                           (seqZ 1 (pages_asked (totalResults (sea_pages 1))))))).
Proof.
  apply (team_pages_are_fetched_in_order sample_web "nonce" "SEA" sea_pages sea_arrests []).
  - intros page _. reflexivity.
  - intros page _. unfold sea_pages, sea_arrests. cbn [Result].
    destruct (decide (page = 1)); reflexivity.
Defined.

Lemma fetch_stops_at_first_failing_team_witness :
  fetch_all_arrests (["SEA"] ++ "NE" :: ["ARI"]) half_broken_web []
  = ([] ++ [GetArrestsPage]
        ++ List.concat (map (fun t => [PostFetchTable "nonce" t 1]) ["SEA"])
        ++ [PostFetchTable "nonce" "NE" 1],
     Raise ConnectionError).
Proof.
  apply (fetch_stops_at_first_failing_team half_broken_web "nonce" ["SEA"] "NE" ["ARI"]
           (fun t => [PostFetchTable "nonce" t 1])
           (fun _ => [mkArrest "John Smith" "SEA" "2020-01-01" "LB" "D" "ARRESTED"
                               "DUI" "" ""])
           [PostFetchTable "nonce" "NE" 1] ConnectionError []).
  - reflexivity.
  - intros t Ht log'. apply list_elem_of_singleton in Ht. rewrite Ht. reflexivity.
  - intros log'. reflexivity.
Defined.

Lemma recorded_player_is_looked_up_witness :
  let st' := add_entry "XYZ" (Some scenario_arrests) (fresh_stats scenario_rankings) in
  exists b,
    last_arrest_of "John Smith" scenario_arrests = Some b
    /\ get_player_bad_boy_points sample_abbreviations sample_conversions
         (Some "JOHN") (Some "smith") (Some "sea") "LB" st'
       = (st', Ok (VInt (points_of scenario_rankings b)))
    /\ get_player_bad_boy_crime sample_abbreviations sample_conversions
         (Some "JOHN") (Some "smith") (Some "sea") "LB" st'
       = (st', Ok (if 0 <? points_of scenario_rankings b
                   then VStr (category_of b) else VNone)).
Proof.
  apply (recorded_player_is_looked_up sample_abbreviations sample_conversions "XYZ"
           (arrest "John Smith" "LB" "D" "DUI") [arrest "John Smith" "LB" "D" "ASSAULT"]
           (fresh_stats scenario_rankings) (Some "JOHN") (Some "smith") (Some "sea") "LB").
  - apply elem_of_cons. left. reflexivity.
  - discriminate.
Defined.

Lemma unknown_key_raises_after_storing_witness :
  let get := get_player_bad_boy_stats sample_abbreviations sample_conversions
               (Some "john") (Some "smith") (Some "sea") "LB" "num_offenders" in
  snd (get (fresh_stats scenario_rankings)) = Raise (KeyError "num_offenders")
  /\ bad_boy_data (fst (get (fresh_stats scenario_rankings))) !! "John Smith"
     = Some (Player (mkPlayer "SEA" "LB" [] 0 None 0)).
Proof.
  apply (unknown_key_raises_after_storing sample_abbreviations sample_conversions
           (Some "john") (Some "smith") (Some "sea") "LB" "num_offenders"
           (fresh_stats scenario_rankings)).
  - reflexivity.
  - discriminate.
  - intros H. repeat (apply elem_of_cons in H as [H|H]; [discriminate|]).
    apply elem_of_nil in H. exact H.
Defined.

Lemma defense_lookups_share_one_entry_witness :
  let get := get_player_bad_boy_stats sample_abbreviations sample_conversions in
  let st := fresh_stats scenario_rankings in
  let shared := Player (mkPlayer "SEA" "D/ST" [] 0 None 0) in
  get (Some "Seattle") None (Some "sea") "D/ST" "total_points" st
  = (fst (get (Some "Seattle") None (Some "sea") "D/ST" "" st), Ok (VInt 0))
  /\ snd (get (Some "Seattle") None (Some "sea") "D/ST" "" st) = Ok (VEntry shared)
  /\ get (Some "New England") None (Some "ne") "D/ST" ""
         (fst (get (Some "Seattle") None (Some "sea") "D/ST" "" st))
     = (fst (get (Some "Seattle") None (Some "sea") "D/ST" "" st), Ok (VEntry shared)).
Proof.
  apply (defense_lookups_share_one_entry sample_abbreviations sample_conversions
           (Some "Seattle") None (Some "sea") (Some "New England") None (Some "ne")
           (fresh_stats scenario_rankings)).
  reflexivity.
Defined.


Lemma failed_fetch_aborts_init_witness :
  init sample_abbreviations broken_table_web "data" true false false world_without_snapshot
  = (mkWorld (files world_without_snapshot)
             (crime_categories_resource world_without_snapshot)
             [GetArrestsPage; PostFetchTable "nonce" "ARI" 1],
     Raise ConnectionError).
Proof.
  apply (failed_fetch_aborts_init sample_abbreviations broken_table_web "data" true
           false false world_without_snapshot scenario_rankings
           [GetArrestsPage; PostFetchTable "nonce" "ARI" 1] ConnectionError).
  - reflexivity.
  - right. split; [reflexivity|]. left. reflexivity.
  - reflexivity.
Defined.

Lemma online_run_reuses_snapshot_witness :
  exists self,
    init sample_abbreviations silent_web "data" false false false world_with_snapshot
    = (world_with_snapshot, Ok self)
    /\ bad_boy_data self = bad_boy_data saving_stats
    /\ raw_bad_boy_data self = ∅
    /\ unique_crime_categories_for_output self = ∅.
Proof.
  apply (online_run_reuses_snapshot sample_abbreviations silent_web "data" false
           world_with_snapshot scenario_rankings (bad_boy_data saving_stats)).
  - reflexivity.
  - reflexivity.
  - intros H. apply (f_equal (fun m => m !! "John Smith")) in H. discriminate H.
Defined.

Lemma no_arrests_gives_empty_store_witness :
  exists self,
    snd (init sample_abbreviations empty_web "data" true false true world_with_snapshot)
    = Ok self
    /\ bad_boy_data self = ∅
    /\ requests (fst (init sample_abbreviations empty_web "data" true false true
                        world_with_snapshot))
       = GetArrestsPage :: map (fun t => PostFetchTable "nonce" t 1) sample_abbreviations.
Proof.
  apply (no_arrests_gives_empty_store sample_abbreviations empty_web "data" true false true
           world_with_snapshot scenario_rankings
           (GetArrestsPage :: map (fun t => PostFetchTable "nonce" t 1) sample_abbreviations)).
  - reflexivity.
  - left. reflexivity.
  - reflexivity.
Defined.

Lemma fetched_store_keys_witness :
  exists self,
    snd sample_run = Ok self
    /\ forall k,
         k ∈ dom (bad_boy_data self)
         <-> exists b, b ∈ [mkArrest "Bo Baker" "NE" "2020-01-01" "CB" "D" "ARRESTED"
                                     "DUI" "" ""]
                         ++ sea_arrests 1 ++ sea_arrests 2 ++ sea_arrests 3
                       /\ a_team b ∈ sample_abbreviations
                       /\ (k = a_name b \/ k = a_team b).
Proof.
  apply (fetched_store_keys sample_abbreviations sample_web "data" true false false
           world_without_snapshot scenario_rankings
           (fst (fetch_all_arrests sample_abbreviations sample_web []))).
  - reflexivity.
  - right. split; [reflexivity|]. left. reflexivity.
  - reflexivity.
Defined.

Lemma saved_run_repeats_offline_witness :
  exists self',
    init sample_abbreviations silent_web "data" false true false (fst sample_run)
    = (fst sample_run, Ok self')
    /\ bad_boy_data self' = bad_boy_data sample_run_stats
    /\ crime_rankings self' = crime_rankings sample_run_stats.
Proof.
  apply (saved_run_repeats_offline sample_abbreviations sample_web "data" false false
           world_without_snapshot (fst sample_run) sample_run_stats
           sample_abbreviations silent_web false).
  - vm_compute. reflexivity.
  - intros H. apply (f_equal (fun m => m !! "John Smith")) in H.
    vm_compute in H. discriminate H.
Defined.

(** ** The table of contents *)

Lemma toc_section_heights_match (section : option (list (list Pdf.cell))) (spacer : bool) :
  List.length
    (if Pdf.has_rows section then
       replicate (List.length (Pdf.rows_of section)) (Pdf.hundredths_of_inch 25)
       ++ (if spacer then [Pdf.hundredths_of_inch 5] else [])
     else [])
  = List.length
      (if Pdf.has_rows section then
         Pdf.rows_of section
         ++ (if spacer then [[Pdf.Text ""; Pdf.Text ""; Pdf.Text ""]] else [])
       else []).
Proof.
  destruct (Pdf.has_rows section); [|reflexivity].
  rewrite !length_app, length_replicate. by destruct spacer.
Qed.

(** X24. The table that [get_toc] builds has one row height for each of its
    rows, whatever sections are switched on and however many rows they hold. *)
Theorem toc_has_a_height_for_every_row (self : Pdf.TableOfContents) :
  List.length (Pdf.rowHeights (Pdf.get_toc self))
  = List.length (Pdf.table_data (Pdf.get_toc self)).
Proof.
  unfold Pdf.get_toc. cbv beta zeta. cbn [Pdf.rowHeights Pdf.table_data].
  rewrite !length_app.
  rewrite (toc_section_heights_match (Pdf.toc_metric_section_data self) true).
  rewrite (toc_section_heights_match (Pdf.toc_top_performers_section_data self) true).
  rewrite (toc_section_heights_match (Pdf.toc_chart_section_data self) true).
  rewrite (toc_section_heights_match (Pdf.toc_team_section_data self) true).
  rewrite (toc_section_heights_match (Pdf.toc_appendix_data self) false).
  reflexivity.
Qed.

Lemma toc_call_outcome (c : Pdf.toc_call) (self : Pdf.TableOfContents) :
  Pdf.call c self = Pdf.AttributeError "append"
  \/ exists self',
       Pdf.call c self = Pdf.Done self'
       /\ Pdf.break_ties self' = Pdf.break_ties self
       /\ Pdf.toc_anchor self'
          = Pdf.toc_anchor self + (if Pdf.adds_section c then 1 else 0)
       /\ Pdf.toc_page self' = Pdf.toc_page self + (if Pdf.adds_section c then 0 else 1)
       /\ List.length (Pdf.all_rows self')
          = (List.length (Pdf.all_rows self) + (if Pdf.adds_section c then 1 else 0))%nat
       /\ (is_Some (Pdf.toc_metric_section_data self')
           <-> is_Some (Pdf.toc_metric_section_data self))
       /\ (is_Some (Pdf.toc_appendix_data self')
           <-> is_Some (Pdf.toc_appendix_data self)).
Proof.
  destruct self as [bt anchor page metric top chart team appendix].
  destruct c as [title|title|title|team_name|title|]; cbn [Pdf.call].
  - unfold Pdf.add_metric_section. cbn. destruct metric as [rows|]; [right | by left].
    eexists. split; [reflexivity|]. unfold Pdf.all_rows. cbn.
    rewrite !length_app. cbn. repeat split; try lia; try done; intros; by eexists.
  - unfold Pdf.add_top_performers_section. cbn. destruct top as [rows|]; [right | by left].
    eexists. split; [reflexivity|]. unfold Pdf.all_rows. cbn.
    rewrite !length_app. cbn. repeat split; try lia; done.
  - unfold Pdf.add_chart_section. cbn. destruct chart as [rows|]; [right | by left].
    eexists. split; [reflexivity|]. unfold Pdf.all_rows. cbn.
    rewrite !length_app. cbn. repeat split; try lia; done.
  - unfold Pdf.add_team_section. cbn. destruct team as [rows|]; [right | by left].
    eexists. split; [reflexivity|]. unfold Pdf.all_rows. cbn.
    rewrite !length_app. cbn. repeat split; try lia; done.
  - unfold Pdf.add_appendix. cbn. destruct appendix as [rows|]; [right | by left].
    eexists. split; [reflexivity|]. unfold Pdf.all_rows. cbn.
    rewrite !length_app. cbn. repeat split; try lia; try done; intros; by eexists.
  - right. eexists. split; [reflexivity|]. cbn. repeat split; try lia; done.
Qed.

(** X25. Along any sequence of calls that all succeed, the anchor of the
    table of contents counts the sections added, each of which has added
    exactly one row, and the page counts the page breaks; so the sections
    are numbered 0, 1, 2, ... in the order they are added, across the five
    parts of the table. *)
Theorem toc_anchor_counts_sections (cs : list Pdf.toc_call)
    (self self' : Pdf.TableOfContents) :
  Pdf.calls cs self = Pdf.Done self' ->
  Pdf.toc_anchor self'
  = Pdf.toc_anchor self + Z.of_nat (List.length (filter (fun c => Pdf.adds_section c = true) cs))
  /\ Pdf.toc_page self'
     = Pdf.toc_page self
       + Z.of_nat (List.length (filter (fun c => Pdf.adds_section c = false) cs))
  /\ List.length (Pdf.all_rows self')
     = (List.length (Pdf.all_rows self)
        + List.length (filter (fun c => Pdf.adds_section c = true) cs))%nat.
Proof.
  revert self. induction cs as [|c cs IH]; intros self Hcalls.
  - injection Hcalls as <-. cbn. repeat split; lia.
  - cbn [Pdf.calls] in Hcalls.
    destruct (toc_call_outcome c self)
      as [Hfail|(self1 & Hdone & _ & Hanchor & Hpage & Hrows & _)].
    + rewrite Hfail in Hcalls. discriminate.
    + rewrite Hdone in Hcalls. destruct (IH self1 Hcalls) as (IH1 & IH2 & IH3).
      rewrite IH1, IH2, IH3, Hanchor, Hpage, Hrows, !filter_cons.
      destruct (Pdf.adds_section c);
        repeat case_decide; try congruence; cbn [List.length];
        repeat split; lia.
Qed.





Lemma toc_anchor_counts_sections_witness :
  exists self',
    Pdf.calls [Pdf.AddMetric "League Standings"; Pdf.AddPage; Pdf.AddChart "Charts";
               Pdf.AddAppendix "Appendix I: Rankings & Metrics"]
              (Pdf.init Pdf.everything_on true) = Pdf.Done self'
    /\ Pdf.toc_anchor self' = 0 + 3
    /\ Pdf.toc_page self' = 1 + 1
    /\ List.length (Pdf.all_rows self')
       = (List.length (Pdf.all_rows (Pdf.init Pdf.everything_on true)) + 3)%nat.
Proof.
  eexists. split; [reflexivity|].
  apply (toc_anchor_counts_sections
           [Pdf.AddMetric "League Standings"; Pdf.AddPage; Pdf.AddChart "Charts";
            Pdf.AddAppendix "Appendix I: Rankings & Metrics"]
           (Pdf.init Pdf.everything_on true)).
  reflexivity.
Defined.


(** ** Styles for tied values *)

Lemma tied_rows_seq (n : nat) : forall (index : Z) (c : Style.color) (font : string),
  Style.tied_rows n index c font
  = flat_map (Style.mark_row c font) (seqZ index (Z.of_nat n)).
Proof.
  induction n as [|n IH]; intros index c font; [reflexivity|].
  rewrite seqZ_cons by lia. cbn [flat_map Style.tied_rows].
  rewrite IH. unfold Style.mark_row at 1. do 3 f_equal. lia.
Qed.

Lemma dq_rows_seq (n : nat) : forall dq_index : Z,
  Style.dq_rows n dq_index
  = map (fun row => Style.TEXTCOLOR 0 row (-1) (-1) Style.red) (seqZ dq_index (Z.of_nat n)).
Proof.
  induction n as [|n IH]; intros dq_index; [reflexivity|].
  rewrite seqZ_cons by lia. cbn [map Style.dq_rows].
  rewrite IH. do 3 f_equal. lia.
Qed.

Lemma seqZ_positive_or_zero (x : Z) :
  seqZ 1 (Z.of_nat (Z.to_nat (Style.positive_or_zero x))) = seqZ 1 x.
Proof.
  unfold Style.positive_or_zero. destruct (Z.ltb_spec 0 x).
  - rewrite Z2Nat.id by lia. reflexivity.
  - rewrite (seqZ_nil 1 x) by lia. reflexivity.
Qed.

Lemma known_metric_type_cases (metric_type : string) :
  metric_type ∈ Style.known_metric_types ->
  metric_type = "scores" \/ metric_type = "coaching_efficiency" \/ metric_type = "luck"
  \/ metric_type = "power_ranking" \/ metric_type = "bad_boy" \/ metric_type = "beef".
Proof.
  unfold Style.known_metric_types. rewrite !elem_of_cons, elem_of_nil. tauto.
Qed.

(** X27. For a metric type it knows, the style that [set_tied_values_style]
    returns is the given list of commands followed by a colour and a font
    command for each of the rows 1 to the number of first places of that
    metric, in order and nothing else: dark red for bad boy points, green
    otherwise, and no row when the number is not positive. For scores with
    ties broken, only row 1 is marked. *)
Theorem tied_style_marks_the_first_places (self : Style.PdfGenerator) (num_ties : Z)
    (table_style_list : list Style.command) (metric_type : string) :
  metric_type ∈ Style.known_metric_types ->
  snd (Style.set_tied_values_style self num_ties table_style_list metric_type)
  = table_style_list
    ++ (if bool_decide (metric_type = "scores") && Style.break_ties self
        then Style.mark_row Style.green (Style.font_italic self) 1
        else flat_map
               (Style.mark_row
                  (if decide (metric_type = "bad_boy") then Style.darkred else Style.green)
                  (Style.font_italic self))
               (seqZ 1 (Style.first_places_of (Style.report_data self) metric_type))).
Proof.
  intros Hknown. apply known_metric_type_cases in Hknown.
  unfold Style.set_tied_values_style. cbv zeta. cbn [snd].
  destruct (bool_decide (metric_type = "scores") && Style.break_ties self);
    [reflexivity|].
  f_equal. rewrite tied_rows_seq. f_equal.
  destruct Hknown as [->|[->|[->|[->|[->| ->]]]]];
    cbn; apply seqZ_positive_or_zero.
Qed.

(** X28. For the six metric types it knows, [set_tied_values_style] does
    not use its argument [num_ties]: the style returned and the generator
    left behind are the same for any two values of it. *)
Theorem num_ties_is_not_used_for_known_metrics (self : Style.PdfGenerator)
    (num_ties num_ties' : Z) (table_style_list : list Style.command)
    (metric_type : string) :
  metric_type ∈ Style.known_metric_types ->
  Style.set_tied_values_style self num_ties table_style_list metric_type
  = Style.set_tied_values_style self num_ties' table_style_list metric_type.
Proof.
  intros Hknown. apply known_metric_type_cases in Hknown.
  destruct Hknown as [->|[->|[->|[->|[->| ->]]]]]; reflexivity.
Qed.

(** X29. For coaching efficiency with disqualified teams, the style kept in
    [style_efficiency_dqs] is the tied style, or the given list when
    coaching efficiency has no tie, followed by one red command for each of
    the last rows of the scores table, as many as there are disqualified
    teams, each reaching to the end of the table; for any other metric type
    the generator is left as it was. *)
Theorem dq_style_marks_the_last_rows (self : Style.PdfGenerator) (num_ties : Z)
    (table_style_list : list Style.command) :
  0 < Style.num_coaching_efficiency_dqs self ->
  let rows := Z.of_nat (List.length (Style.data_for_scores self)) in
  let dqs := Style.num_coaching_efficiency_dqs self in
  let run := Style.set_tied_values_style self num_ties table_style_list
               "coaching_efficiency" in
  Style.style_efficiency_dqs (fst run)
  = Some ((if 0 <? Style.ties_for_coaching_efficiency (Style.report_data self)
           then snd run else table_style_list)
          ++ map (fun row => Style.TEXTCOLOR 0 row (-1) (-1) Style.red)
                 (seqZ (rows - dqs + 1) dqs))
  /\ (forall row, row ∈ seqZ (rows - dqs + 1) dqs <-> rows - dqs < row <= rows)
  /\ (forall metric_type, metric_type <> "coaching_efficiency" ->
        fst (Style.set_tied_values_style self num_ties table_style_list metric_type)
        = self).
Proof.
  intros Hdq rows dqs run. split; [|split].
  - unfold run, Style.set_tied_values_style. cbv zeta. cbn [fst snd].
    rewrite decide_True by reflexivity.
    rewrite (proj2 (Z.ltb_lt 0 (Style.num_coaching_efficiency_dqs self)) Hdq).
    cbn [Style.style_efficiency_dqs]. rewrite dq_rows_seq.
    rewrite Z2Nat.id by lia. reflexivity.
  - intros row. rewrite elem_of_seqZ. unfold rows, dqs. lia.
  - intros metric_type Hne. unfold Style.set_tied_values_style. cbv zeta. cbn [fst].
    by rewrite (decide_False (P := metric_type = "coaching_efficiency")) by exact Hne.
Qed.

Lemma tied_style_marks_the_first_places_witness :
  snd (Style.set_tied_values_style Style.sample_generator 7 [Style.Given "GRID"] "bad_boy")
  = [Style.Given "GRID"]
    ++ flat_map (Style.mark_row Style.darkred "Helvetica-Oblique") (seqZ 1 3).
Proof.
  apply (tied_style_marks_the_first_places Style.sample_generator 7
           [Style.Given "GRID"] "bad_boy").
  unfold Style.known_metric_types. do 4 (apply elem_of_cons; right).
  apply elem_of_cons. left. reflexivity.
Defined.

Lemma num_ties_is_not_used_for_known_metrics_witness :
  Style.set_tied_values_style Style.sample_generator 0 [Style.Given "GRID"] "bad_boy"
  = Style.set_tied_values_style Style.sample_generator 7 [Style.Given "GRID"] "bad_boy".
Proof.
  apply (num_ties_is_not_used_for_known_metrics Style.sample_generator 0 7
           [Style.Given "GRID"] "bad_boy").
  unfold Style.known_metric_types. do 4 (apply elem_of_cons; right).
  apply elem_of_cons. left. reflexivity.
Defined.

Lemma dq_style_marks_the_last_rows_witness :
  let run := Style.set_tied_values_style Style.sample_generator 7 [Style.Given "GRID"]
               "coaching_efficiency" in
  Style.style_efficiency_dqs (fst run)
  = Some ((if 0 <? 1 then snd run else [Style.Given "GRID"])
          ++ map (fun row => Style.TEXTCOLOR 0 row (-1) (-1) Style.red)
                 (seqZ (10 - 2 + 1) 2))
  /\ (forall row, row ∈ seqZ (10 - 2 + 1) 2 <-> 10 - 2 < row <= 10)
  /\ (forall metric_type, metric_type <> "coaching_efficiency" ->
        fst (Style.set_tied_values_style Style.sample_generator 7 [Style.Given "GRID"]
               metric_type)
        = Style.sample_generator).
Proof.
  apply (dq_style_marks_the_last_rows Style.sample_generator 7 [Style.Given "GRID"]).
  reflexivity.
Defined.
